(** * citi-async: the Couchbase online repository

    A shallow embedding of [Config.py], [BaseRepo.py] and [Conn.py].

    - [Py]      : the Python values and builtins the repository relies on
                  ([str], [bytes], [dict], [timedelta], exceptions).
    - [Config]  : [ConnConfig].
    - [Sdk]     : the surface of the couchbase SDK that [Conn.py] consumes,
                  as an interface ([Driver]); the SDK itself is an external
                  collaborator and is never implemented by the repository.
    - [Conn]    : [_OnlineRepoCouchbase], written over any [Driver] in a
                  state-and-exception monad that also records every SDK call
                  and every [await].
    - [Mem]     : an in-memory [Driver], used to run the repository on
                  concrete inputs.

    [LOG.info], [LOG.error] and [print] only produce output and are left
    out, except that the expressions interpolated into a log message are
    still evaluated where they can raise. *)

From Stdlib Require Import ZArith List String Ascii Bool Lia.
From Stdlib.Strings Require Import Byte.
From Stdlib Require Import DecimalString.
Import ListNotations.
Open Scope string_scope.
Open Scope Z_scope.

(* ===================================================================== *)
(** ** Python values, exceptions and builtins *)
(* ===================================================================== *)

Module Py.

(** The exception classes that can reach the repository. All of them derive
    from [Exception]. [CouchbaseException cls] stands for any SDK exception
    class other than [DocumentNotFoundException], named by [cls]. *)
Inductive exn : Type :=
| DocumentNotFoundException
| CouchbaseException (cls : string)
| ValueError
| TypeError
| AttributeError
| OverflowError
| NotImplementedError.

Definition exn_eqb (a b : exn) : bool :=
  match a, b with
  | DocumentNotFoundException, DocumentNotFoundException => true
  | CouchbaseException x, CouchbaseException y => String.eqb x y
  | ValueError, ValueError => true
  | TypeError, TypeError => true
  | AttributeError, AttributeError => true
  | OverflowError, OverflowError => true
  | NotImplementedError, NotImplementedError => true
  | _, _ => false
  end.

(** Outcome of evaluating a Python expression. *)
Inductive res (A : Type) : Type :=
| Ok (a : A)
| Raise (e : exn).
Arguments Ok {A} a.
Arguments Raise {A} e.

Definition res_bind {A B} (r : res A) (k : A -> res B) : res B :=
  match r with
  | Ok a => k a
  | Raise e => Raise e
  end.

Definition is_ok {A} (r : res A) : bool :=
  match r with Ok _ => true | Raise _ => false end.

(** Values: what JSON carries, plus [bytes]. Floats are not modelled. Text
    is a string of code points below 256. Dictionaries keep insertion
    order. *)
#[warnings="-register-all"]
Inductive pyval : Type :=
| PNone
| PBool (b : bool)
| PInt (n : Z)
| PStr (s : string)
| PBytes (b : list byte)
| PList (xs : list pyval)
| PDict (kvs : list (pyval * pyval)).

(** *** [repr] *)

Definition hex_digit (n : N) : ascii :=
  ascii_of_N (if (n <? 10)%N then 48 + n else 87 + n)%N.

Definition hex2 (n : N) : string :=
  String (hex_digit (n / 16)) (String (hex_digit (n mod 16)) EmptyString).

Definition backslash : ascii := ascii_of_N 92.
Definition squote : ascii := ascii_of_N 39.
Definition dquote : ascii := ascii_of_N 34.

Fixpoint contains (c : ascii) (s : string) : bool :=
  match s with
  | EmptyString => false
  | String d s' => Ascii.eqb c d || contains c s'
  end.

(** Python quotes with a single quote unless the text has a single quote
    and no double quote. *)
Definition pick_quote (s : string) : ascii :=
  if contains squote s && negb (contains dquote s) then dquote else squote.

(** [printable] is [str.isprintable] on one code point below 256. *)
Definition printable (n : N) : bool :=
  ((32 <=? n) && (n <? 127) || (161 <=? n) && negb (n =? 173))%N.

Definition escape (q : ascii) (is_printable : N -> bool) (c : ascii) : string :=
  let n := N_of_ascii c in
  if Ascii.eqb c q || Ascii.eqb c backslash then String backslash (String c EmptyString)
  else if (n =? 9)%N then String backslash "t"
  else if (n =? 10)%N then String backslash "n"
  else if (n =? 13)%N then String backslash "r"
  else if is_printable n then String c EmptyString
  else String backslash ("x" ++ hex2 n).

Fixpoint escape_all (q : ascii) (is_printable : N -> bool) (s : string) : string :=
  match s with
  | EmptyString => EmptyString
  | String c s' => escape q is_printable c ++ escape_all q is_printable s'
  end.

Definition repr_str (s : string) : string :=
  let q := pick_quote s in
  String q (escape_all q printable s ++ String q EmptyString).

Definition string_of_bytes (b : list byte) : string :=
  string_of_list_byte b.

Definition repr_bytes (b : list byte) : string :=
  let s := string_of_bytes b in
  let q := pick_quote s in
  "b" ++ String q (escape_all q (fun n => (32 <=? n) && (n <? 127))%N s ++ String q EmptyString).

Definition repr_int (n : Z) : string :=
  NilZero.string_of_int (Z.to_int n).

Fixpoint join (sep : string) (l : list string) : string :=
  match l with
  | [] => EmptyString
  | [x] => x
  | x :: l' => x ++ sep ++ join sep l'
  end.

Fixpoint repr (v : pyval) : string :=
  match v with
  | PNone => "None"
  | PBool true => "True"
  | PBool false => "False"
  | PInt n => repr_int n
  | PStr s => repr_str s
  | PBytes b => repr_bytes b
  | PList xs => "[" ++ join ", " (map repr xs) ++ "]"
  | PDict kvs =>
      "{" ++ join ", " (map (fun kv => repr (fst kv) ++ ": " ++ repr (snd kv)) kvs) ++ "}"
  end.

(** *** [str(v)] *)
Definition py_str (v : pyval) : res pyval :=
  match v with
  | PStr s => Ok (PStr s)
  | _ => Ok (PStr (repr v))
  end.

(** *** [bytes(v)] *)

Definition byte_of_int (n : Z) : res byte :=
  if (0 <=? n) && (n <? 256) then
    match Byte.of_N (Z.to_N n) with
    | Some b => Ok b
    | None => Raise ValueError
    end
  else Raise ValueError.

(** One element of the iterable given to [bytes]: it must be an integer
    in [range(256)]. *)
Definition byte_of_item (v : pyval) : res byte :=
  match v with
  | PInt n => byte_of_int n
  | PBool b => byte_of_int (if b then 1 else 0)
  | _ => Raise TypeError
  end.

Fixpoint bytes_of_items (l : list pyval) : res (list byte) :=
  match l with
  | [] => Ok []
  | x :: l' =>
      res_bind (byte_of_item x) (fun b =>
      res_bind (bytes_of_items l') (fun bs => Ok (b :: bs)))
  end.

(** [bytes(n)] for an integer is [n] zero bytes; running out of memory
    is not modelled. *)
Definition zero_bytes (n : Z) : res pyval :=
  if n <? 0 then Raise ValueError
  else if 2 ^ 63 <=? n then Raise OverflowError
  else Ok (PBytes (repeat x00 (Z.to_nat n))).

Definition py_bytes (v : pyval) : res pyval :=
  match v with
  | PBytes b => Ok (PBytes b)
  | PInt n => zero_bytes n
  | PBool b => zero_bytes (if b then 1 else 0)
  | PList xs => res_bind (bytes_of_items xs) (fun bs => Ok (PBytes bs))
  | PDict kvs => res_bind (bytes_of_items (map fst kvs)) (fun bs => Ok (PBytes bs))
  | PStr _ => Raise TypeError
  | PNone => Raise TypeError
  end.

(** *** [dict(v)] *)

Definition hashable (v : pyval) : bool :=
  match v with
  | PList _ | PDict _ => false
  | _ => true
  end.

Definition bytes_eqb (a b : list byte) : bool :=
  String.eqb (string_of_bytes a) (string_of_bytes b).

(** [==] on hashable values: [True == 1] and [False == 0]. *)
Definition key_eqb (a b : pyval) : bool :=
  match a, b with
  | PNone, PNone => true
  | PBool x, PBool y => Bool.eqb x y
  | PBool x, PInt n | PInt n, PBool x => n =? (if x then 1 else 0)
  | PInt n, PInt m => n =? m
  | PStr s, PStr t => String.eqb s t
  | PBytes x, PBytes y => bytes_eqb x y
  | _, _ => false
  end.

(** [d[k] = v]: an equal key keeps its place and its key object. *)
Fixpoint dict_set (kvs : list (pyval * pyval)) (k v : pyval) : list (pyval * pyval) :=
  match kvs with
  | [] => [(k, v)]
  | (k', v') :: rest =>
      if key_eqb k' k then (k', v) :: rest else (k', v') :: dict_set rest k v
  end.

Definition chars (s : string) : list pyval :=
  map (fun c => PStr (String c EmptyString)) (list_ascii_of_string s).

Definition ints (b : list byte) : list pyval :=
  map (fun x => PInt (Z.of_N (Byte.to_N x))) b.

(** The items of an iterable, or [TypeError] when [v] is not iterable. *)
Definition iterate (v : pyval) : res (list pyval) :=
  match v with
  | PList xs => Ok xs
  | PStr s => Ok (chars s)
  | PBytes b => Ok (ints b)
  | PDict kvs => Ok (map fst kvs)
  | PNone | PBool _ | PInt _ => Raise TypeError
  end.

(** One element of the sequence given to [dict]: a sequence of exactly two
    items. *)
Definition as_pair (v : pyval) : res (pyval * pyval) :=
  res_bind (iterate v) (fun items =>
    match items with
    | [k; x] => Ok (k, x)
    | _ => Raise ValueError
    end).

Fixpoint dict_of_pairs (acc : list (pyval * pyval)) (l : list pyval)
  : res (list (pyval * pyval)) :=
  match l with
  | [] => Ok acc
  | item :: l' =>
      res_bind (as_pair item) (fun kv =>
        if hashable (fst kv) then dict_of_pairs (dict_set acc (fst kv) (snd kv)) l'
        else Raise TypeError)
  end.

Definition py_dict (v : pyval) : res pyval :=
  match v with
  | PDict kvs => Ok (PDict kvs)
  | _ => res_bind (iterate v) (fun items =>
         res_bind (dict_of_pairs [] items) (fun kvs => Ok (PDict kvs)))
  end.

(** *** [datetime.timedelta(seconds=n)] *)

Record timedelta : Type := { total_seconds : Z }.

(** The day count of a [timedelta] is limited to 999999999 in magnitude. *)
Definition timedelta_seconds (n : Z) : res timedelta :=
  if 999999999 <? Z.abs (n / 86400) then Raise OverflowError
  else Ok {| total_seconds := n |}.

End Py.

(* ===================================================================== *)
(** ** Config.py *)
(* ===================================================================== *)

Module Config.

(** The attributes [ConnConfig.__init__] assigns, in assignment order. *)
Record ConnConfig : Type := {
  host_or_dsn : string;
  user_name : string;
  password : string;
  bucket_name : string;
  scope_name : string;
  collection_name : string;
  ssl : bool;
  ca_cert : option string;
  connect_timeout : Z;
  kv_timeout : Z;
  wait_timeout : Z;
  sasl_mech : string
}.

(** A keyword argument left out of the call is [None] here and takes the
    default of the signature. *)
Definition default {A} (given : option A) (dflt : A) : A :=
  match given with
  | Some a => a
  | None => dflt
  end.

(** [ConnConfig.__init__]: four required arguments and eight keyword
    arguments. Every attribute is assigned from its argument; no argument
    is inspected. *)
Definition __init__
    (host_or_dsn user_name password bucket_name : string)
    (scope_name collection_name : option string)
    (ssl : option bool) (ca_cert : option string)
    (connect_timeout kv_timeout wait_timeout : option Z)
    (sasl_mech : option string) : ConnConfig :=
  {| host_or_dsn := host_or_dsn;
     user_name := user_name;
     password := password;
     bucket_name := bucket_name;
     scope_name := default scope_name "_default";
     collection_name := default collection_name "_default";
     ssl := default ssl false;
     ca_cert := ca_cert;
     connect_timeout := default connect_timeout 10;
     kv_timeout := default kv_timeout 5;
     wait_timeout := default wait_timeout 5;
     sasl_mech := default sasl_mech "PLAIN" |}.

(** The same config with other TLS and SASL settings. *)
Definition with_security (c : ConnConfig)
    (ssl' : bool) (ca_cert' : option string) (sasl_mech' : string) : ConnConfig :=
  {| host_or_dsn := host_or_dsn c;
     user_name := user_name c;
     password := password c;
     bucket_name := bucket_name c;
     scope_name := scope_name c;
     collection_name := collection_name c;
     ssl := ssl';
     ca_cert := ca_cert';
     connect_timeout := connect_timeout c;
     kv_timeout := kv_timeout c;
     wait_timeout := wait_timeout c;
     sasl_mech := sasl_mech' |}.

(** The same config with another readiness-wait timeout. *)
Definition with_wait_timeout (c : ConnConfig) (t : Z) : ConnConfig :=
  {| host_or_dsn := host_or_dsn c;
     user_name := user_name c;
     password := password c;
     bucket_name := bucket_name c;
     scope_name := scope_name c;
     collection_name := collection_name c;
     ssl := ssl c;
     ca_cert := ca_cert c;
     connect_timeout := connect_timeout c;
     kv_timeout := kv_timeout c;
     wait_timeout := t;
     sasl_mech := sasl_mech c |}.

(** [ConnConfig.__repr__]: the f-string of the source; a bool formats as
    [True] or [False] and an int in decimal. *)
Definition __repr__ (self : ConnConfig) : string :=
  "ConnConfig(host_or_dsn='" ++ host_or_dsn self ++ "', user='" ++ user_name self ++ "', "
  ++ "bucket='" ++ bucket_name self ++ "', scope='" ++ scope_name self
  ++ "', collection='" ++ collection_name self ++ "', "
  ++ "ssl=" ++ (if ssl self then "True" else "False")
  ++ ", connect_timeout=" ++ Py.repr_int (connect_timeout self)
  ++ ", kv_timeout=" ++ Py.repr_int (kv_timeout self) ++ ", "
  ++ "wait_timeout=" ++ Py.repr_int (wait_timeout self)
  ++ ", sasl_mech='" ++ sasl_mech self ++ "')".

(** The same config with another password and CA certificate path. *)
Definition with_secrets (c : ConnConfig) (password' : string) (ca_cert' : option string)
  : ConnConfig :=
  {| host_or_dsn := host_or_dsn c;
     user_name := user_name c;
     password := password';
     bucket_name := bucket_name c;
     scope_name := scope_name c;
     collection_name := collection_name c;
     ssl := ssl c;
     ca_cert := ca_cert';
     connect_timeout := connect_timeout c;
     kv_timeout := kv_timeout c;
     wait_timeout := wait_timeout c;
     sasl_mech := sasl_mech c |}.

End Config.

(* ===================================================================== *)
(** ** The couchbase SDK, as consumed by Conn.py *)
(* ===================================================================== *)

Module Sdk.
Import Py.

(** [couchbase.transcoder]: the transcoder the repository constructs. A
    call without options uses the SDK's default (JSON) transcoder. *)
Inductive Transcoder : Type :=
| RawBinaryTranscoder.

(** [GetOptions(transcoder=...)] and [UpsertOptions(transcoder=...)]. *)
Record GetOptions : Type := { get_transcoder : Transcoder }.
Record UpsertOptions : Type := { upsert_transcoder : Transcoder }.

(** [PasswordAuthenticator(username, password)]. *)
Record PasswordAuthenticator : Type := {
  auth_username : string;
  auth_password : string
}.

(** [ClusterTimeoutOptions(connect_timeout=..., kv_timeout=...)]. *)
Record ClusterTimeoutOptions : Type := {
  opt_connect_timeout : timedelta;
  opt_kv_timeout : timedelta
}.

(** [ClusterOptions(auth, timeout_options=...)]. *)
Record ClusterOptions : Type := {
  authenticator : PasswordAuthenticator;
  timeout_options : ClusterTimeoutOptions
}.

(** The result of a lookup, with its (already transcoded) content. *)
Record GetResult : Type := { value : pyval }.

(** [result.content_as[T]] is [T(content)]. *)
Inductive pytype : Type := T_str | T_bytes | T_dict.

Definition content_as (result : GetResult) (T : pytype) : res pyval :=
  match T with
  | T_str => py_str (value result)
  | T_bytes => py_bytes (value result)
  | T_dict => py_dict (value result)
  end.

(** The object [cluster.query] returns, seen through iteration: it yields
    rows until it stops or raises. *)
Inductive QueryResult : Type :=
| Stop
| Yield (row : pyval) (rest : QueryResult)
| Fail (e : exn).

(** The rows an iteration yields, in order. *)
Fixpoint rows_of (q : QueryResult) : list pyval :=
  match q with
  | Stop => []
  | Yield row rest => row :: rows_of rest
  | Fail _ => []
  end.

(** Whether an iteration ends normally. *)
Fixpoint completes (q : QueryResult) : bool :=
  match q with
  | Stop => true
  | Yield _ rest => completes rest
  | Fail _ => false
  end.

(** The result [cluster.query] of the asyncio SDK ([acouchbase]) returns
    for a statement that has [rows]: it is made for [async for], and its
    [__iter__] raises. Seen through a plain [for] it yields nothing and
    raises, whatever the rows are. *)
Definition async_result (rows : list pyval) : QueryResult :=
  Fail NotImplementedError.

(** The exception that ends an iteration, if one does. *)
Fixpoint failure_of (q : QueryResult) : option exn :=
  match q with
  | Stop => None
  | Yield _ rest => failure_of rest
  | Fail e => Some e
  end.

(** An SDK call, by method and arguments. *)
Inductive call : Type :=
| CPasswordAuthenticator (username password : string)
| CConnect (connstr : string) (options : ClusterOptions)
| CClusterOnConnect
| CBucket (name : string)
| CBucketOnConnect
| CScope (name : string)
| CCollection (name : string)
| CGet (key : string) (options : option GetOptions)
| CUpsert (key : string) (doc : pyval) (options : option UpsertOptions)
| CQuery (statement : string).

(** What the program does with the SDK: it makes a call, and it awaits the
    awaitable a call returned. *)
Inductive event : Type :=
| Called (c : call)
| Awaited (c : call).

Definition is_await (ev : event) : bool :=
  match ev with
  | Awaited _ => true
  | Called _ => false
  end.

(** An awaitable: running it to completion ([await]) acts on the world and
    gives a result or raises. *)
Definition awaitable (W A : Type) : Type := W -> res A * W.

(** The SDK over a world [W] (the cluster, the network, the SDK's own
    state). A method of [acouchbase] that the source awaits returns an
    awaitable; the other methods return their result at once. Any call
    can raise. *)
Record Driver : Type := {
  W : Type;
  cluster_t : Type;
  bucket_t : Type;
  scope_t : Type;
  collection_t : Type;
  mutation_t : Type;
  Cluster_connect : string -> ClusterOptions -> W -> res (awaitable W cluster_t) * W;
  cluster_on_connect : cluster_t -> W -> res (awaitable W unit) * W;
  cluster_bucket : cluster_t -> string -> W -> res bucket_t * W;
  bucket_on_connect : bucket_t -> W -> res (awaitable W unit) * W;
  bucket_scope : bucket_t -> string -> W -> res scope_t * W;
  scope_collection : scope_t -> string -> W -> res collection_t * W;
  collection_get :
    collection_t -> string -> option GetOptions -> W -> res (awaitable W GetResult) * W;
  collection_upsert :
    collection_t -> string -> pyval -> option UpsertOptions ->
    W -> res (awaitable W mutation_t) * W;
  cluster_query : cluster_t -> string -> W -> res QueryResult * W
}.

End Sdk.

(* ===================================================================== *)
(** ** BaseRepo.py *)
(* ===================================================================== *)

Module BaseRepo.
Import Py.

(** Every method of the base class is a placeholder that raises. *)
Definition create_conn {A C} (conn_config : C) : res A := Raise NotImplementedError.
Definition find_by_key {A K B} (key : K) (compress : B) : res A := Raise NotImplementedError.
Definition save {A K V B} (key : K) (value : V) (compress : B) : res A :=
  Raise NotImplementedError.
Definition save_all {A O} (obj_to_save : O) : res A := Raise NotImplementedError.
Definition native_query {A Q} (query : Q) : res A := Raise NotImplementedError.

End BaseRepo.

(* ===================================================================== *)
(** ** Conn.py *)
(* ===================================================================== *)

Module Conn.
Import Py Config Sdk.

Section OnlineRepo.
Context (D : Driver).

(** The attributes of an [_OnlineRepoCouchbase] instance. *)
Record repo : Type := {
  conn : option (collection_t D);
  cluster : option (cluster_t D);
  conn_config : ConnConfig
}.

(** What a method runs in: the world behind the SDK, the SDK calls and
    awaits made so far (oldest first), and the instance. *)
Record state : Type := {
  world : W D;
  trace : list event;
  self : repo
}.

(** A method body: it ends with a value or a raised exception, and leaves
    a state either way. *)
Definition M (A : Type) : Type := state -> res A * state.

Definition ret {A} (a : A) : M A := fun s => (Ok a, s).

Definition raise {A} (e : exn) : M A := fun s => (Raise e, s).

Definition bind {A B} (m : M A) (k : A -> M B) : M B :=
  fun s =>
    match m s with
    | (Ok a, s') => k a s'
    | (Raise e, s') => (Raise e, s')
    end.

(** [try: body / except ... as e: handler e]. A handler that does not name
    the class of [e] re-raises it. *)
Definition try_except {A} (body : M A) (handler : exn -> M A) : M A :=
  fun s =>
    match body s with
    | (Ok a, s') => (Ok a, s')
    | (Raise e, s') => handler e s'
    end.

Definition of_res {A} (r : res A) : M A := fun s => (r, s).

Definition emit (ev : event) : M unit :=
  fun s => (Ok tt, {| world := world s; trace := trace s ++ [ev]; self := self s |}).

Definition on_world {A} (f : W D -> res A * W D) : M A :=
  fun s =>
    let (r, w) := f (world s) in
    (r, {| world := w; trace := trace s; self := self s |}).

Notation "x <- m ;; k" := (bind m (fun x => k))
  (at level 61, m at next level, right associativity).
Notation "m ;; k" := (bind m (fun _ => k))
  (at level 61, right associativity).

(** An awaitable in the program's hands, with the call it came from. *)
Record pending (A : Type) : Type := {
  pending_call : call;
  pending_run : awaitable (W D) A
}.
Arguments pending_call {A} p.
Arguments pending_run {A} p.

(** A call that returns an awaitable. *)
Definition call_async {A} (c : call)
    (f : W D -> res (awaitable (W D) A) * W D) : M (pending A) :=
  emit (Called c) ;;
  run <- on_world f ;;
  ret {| pending_call := c; pending_run := run |}.

(** A call that returns its result. *)
Definition call_sync {A} (c : call) (f : W D -> res A * W D) : M A :=
  emit (Called c) ;;
  on_world f.

(** [await p]. *)
Definition await {A} (p : pending A) : M A :=
  emit (Awaited (pending_call p)) ;;
  on_world (pending_run p).

(** [self.conn.<method>]: on [None] the attribute lookup raises. *)
Definition self_conn : M (collection_t D) :=
  fun s =>
    match conn (self s) with
    | Some c => (Ok c, s)
    | None => (Raise AttributeError, s)
    end.

(** [self.cluster.<method>]. *)
Definition self_cluster : M (cluster_t D) :=
  fun s =>
    match cluster (self s) with
    | Some c => (Ok c, s)
    | None => (Raise AttributeError, s)
    end.

(** [self.cluster = c]. *)
Definition set_cluster (c : cluster_t D) : M unit :=
  fun s =>
    (Ok tt,
     {| world := world s; trace := trace s;
        self := {| conn := conn (self s); cluster := Some c;
                   conn_config := conn_config (self s) |} |}).

(** [self.conn = c]. *)
Definition set_conn (c : collection_t D) : M unit :=
  fun s =>
    (Ok tt,
     {| world := world s; trace := trace s;
        self := {| conn := Some c; cluster := cluster (self s);
                   conn_config := conn_config (self s) |} |}).

(** [_OnlineRepoCouchbase.__init__], after [BaseRepo.__init__]. *)
Definition __init__ (conn_config : ConnConfig) : repo :=
  {| conn := None; cluster := None; conn_config := conn_config |}.

(** [create_conn]. *)
Definition create_conn (conn_config : ConnConfig) : M unit :=
  try_except
    (emit (Called (CPasswordAuthenticator (user_name conn_config) (password conn_config))) ;;
     let auth := {| auth_username := user_name conn_config;
                    auth_password := password conn_config |} in
     ct <- of_res (timedelta_seconds (connect_timeout conn_config)) ;;
     kt <- of_res (timedelta_seconds (kv_timeout conn_config)) ;;
     let timeout_opts := {| opt_connect_timeout := ct; opt_kv_timeout := kt |} in
     let connstr := "couchbase://" ++ host_or_dsn conn_config in
     let options := {| authenticator := auth; timeout_options := timeout_opts |} in
     p <- call_async (CConnect connstr options) (Cluster_connect D connstr options) ;;
     c <- await p ;;
     set_cluster c ;;
     cl <- self_cluster ;;
     p <- call_async CClusterOnConnect (cluster_on_connect D cl) ;;
     await p ;;
     cl <- self_cluster ;;
     bucket <- call_sync (CBucket (bucket_name conn_config))
                 (cluster_bucket D cl (bucket_name conn_config)) ;;
     p <- call_async CBucketOnConnect (bucket_on_connect D bucket) ;;
     await p ;;
     scope <- call_sync (CScope (scope_name conn_config))
                (bucket_scope D bucket (scope_name conn_config)) ;;
     col <- call_sync (CCollection (collection_name conn_config))
              (scope_collection D scope (collection_name conn_config)) ;;
     set_conn col)
    (fun exception => raise exception).

(** [initialize_repo]. *)
Definition initialize_repo : M unit :=
  try_except
    (fun s =>
       match conn (self s) with
       | None => create_conn (conn_config (self s)) s
       | Some _ => ret tt s
       end)
    (fun exe => raise exe).

(** [validate]. *)
Definition validate : M (option GetResult) :=
  try_except
    (let transcoder := RawBinaryTranscoder in
     c <- self_conn ;;
     let options := Some {| get_transcoder := transcoder |} in
     p <- call_async (CGet "dummykey" options) (collection_get D c "dummykey" options) ;;
     result <- await p ;;
     ret (Some result))
    (fun exception =>
       match exception with
       | DocumentNotFoundException => ret None
       | _ => raise exception
       end).

(** [find_by_key]. The lookup passes no options. The log line evaluates
    [result.content_as[str]] before the branch on [compress]. *)
Definition find_by_key (key : string) (compress : bool) : M pyval :=
  try_except
    (c <- self_conn ;;
     p <- call_async (CGet key None) (collection_get D c key None) ;;
     result <- await p ;;
     of_res (content_as result T_str) ;;
     if compress then
       let transcoder := RawBinaryTranscoder in
       of_res (content_as result T_bytes)
     else
       try_except
         (of_res (content_as result T_dict))
         (fun e =>
            match e with
            | ValueError => of_res (content_as result T_str)
            | _ => raise e
            end))
    (fun exception =>
       match exception with
       | DocumentNotFoundException => ret PNone
       | _ => raise exception
       end).

(** [save]. *)
Definition save (key : string) (value : pyval) (compress : bool) : M (mutation_t D) :=
  try_except
    (if compress then
       let transcoder := RawBinaryTranscoder in
       c <- self_conn ;;
       let options := Some {| upsert_transcoder := transcoder |} in
       p <- call_async (CUpsert key value options) (collection_upsert D c key value options) ;;
       await p
     else
       c <- self_conn ;;
       p <- call_async (CUpsert key value None) (collection_upsert D c key value None) ;;
       await p)
    (fun exception => raise exception).

(** [for key, value in items: body]. *)
Fixpoint for_items (items : list (string * pyval)) (body : string -> pyval -> M unit)
  : M unit :=
  match items with
  | [] => ret tt
  | (key, value) :: rest => body key value ;; for_items rest body
  end.

(** [save_all], a plain [def]: each [self.conn.upsert(key, value)] is an
    expression statement, and the awaitable it returns is dropped.
    [obj_to_save.items()] is the list of entries in iteration order. *)
Definition save_all (obj_to_save : list (string * pyval)) : M unit :=
  try_except
    (for_items obj_to_save (fun key value =>
       c <- self_conn ;;
       p <- call_async (CUpsert key value None) (collection_upsert D c key value None) ;;
       ret tt))
    (fun exception => raise exception).

(** [[row for row in result]]. *)
Fixpoint comprehension (result : QueryResult) (acc : list pyval) : res (list pyval) :=
  match result with
  | Stop => Ok acc
  | Yield row rest => comprehension rest (acc ++ [row])
  | Fail e => Raise e
  end.

(** [native_query], a plain [def]. *)
Definition native_query (query : string) : M (list pyval) :=
  try_except
    (cl <- self_cluster ;;
     result <- call_sync (CQuery query) (cluster_query D cl query) ;;
     of_res (comprehension result []))
    (fun exception => raise exception).

(** The public operations, to speak of all of them at once. *)
Inductive operation : Type :=
| Initialize
| Validate
| FindByKey (key : string) (compress : bool)
| Save (key : string) (value : pyval) (compress : bool)
| SaveAll (obj_to_save : list (string * pyval))
| NativeQuery (query : string).

Inductive returned : Type :=
| RNone
| RResult (r : option GetResult)
| RValue (v : pyval)
| RMutation (m : mutation_t D)
| RRows (rows : list pyval).

Definition fmap {A B} (f : A -> B) (m : M A) : M B :=
  a <- m ;; ret (f a).

Definition run (o : operation) : M returned :=
  match o with
  | Initialize => fmap (fun _ => RNone) initialize_repo
  | Validate => fmap RResult validate
  | FindByKey key compress => fmap RValue (find_by_key key compress)
  | Save key value compress => fmap RMutation (save key value compress)
  | SaveAll obj_to_save => fmap (fun _ => RNone) (save_all obj_to_save)
  | NativeQuery query => fmap RRows (native_query query)
  end.

(** The lookup [await self.conn.get(key, options)] as one step on the
    world. *)
Definition lookup (c : collection_t D) (key : string) (options : option GetOptions)
    (w : W D) : res GetResult * W D :=
  match collection_get D c key options w with
  | (Ok run, w') => run w'
  | (Raise e, w') => (Raise e, w')
  end.

(** The events a method adds to the trace. *)
Definition events_of {A} (m : M A) (s : state) : list event :=
  skipn (List.length (trace s)) (trace (snd (m s))).

(** The SDK calls of a complete bind sequence, in order. *)
Definition bind_sequence (conn_config : ConnConfig) (ct kt : timedelta) : list event :=
  let options :=
    {| authenticator := {| auth_username := user_name conn_config;
                           auth_password := password conn_config |};
       timeout_options := {| opt_connect_timeout := ct; opt_kv_timeout := kt |} |} in
  [ Called (CPasswordAuthenticator (user_name conn_config) (password conn_config));
    Called (CConnect ("couchbase://" ++ host_or_dsn conn_config) options);
    Awaited (CConnect ("couchbase://" ++ host_or_dsn conn_config) options);
    Called CClusterOnConnect;
    Awaited CClusterOnConnect;
    Called (CBucket (bucket_name conn_config));
    Called CBucketOnConnect;
    Awaited CBucketOnConnect;
    Called (CScope (scope_name conn_config));
    Called (CCollection (collection_name conn_config)) ].

(** The call [save_all] makes for one entry. *)
Definition upsert_call (entry : string * pyval) : event :=
  Called (CUpsert (fst entry) (snd entry) None).

(** The bind sequence of a config whose timeouts [timedelta] accepts. *)
Definition bind_sequence_of (conn_config : ConnConfig) : list event :=
  bind_sequence conn_config
    {| total_seconds := connect_timeout conn_config |}
    {| total_seconds := kv_timeout conn_config |}.

(** The write [await self.conn.upsert(key, value, options)] as one step on
    the world. *)
Definition store (c : collection_t D) (key : string) (value : pyval)
    (options : option UpsertOptions) (w : W D) : res (mutation_t D) * W D :=
  match collection_upsert D c key value options w with
  | (Ok run, w') => run w'
  | (Raise e, w') => (Raise e, w')
  end.

(** The options [save] gives to [upsert]. *)
Definition save_options (compress : bool) : option UpsertOptions :=
  if compress then Some {| upsert_transcoder := RawBinaryTranscoder |} else None.

(** The options [validate] gives to [get]. *)
Definition validate_options : option GetOptions :=
  Some {| get_transcoder := RawBinaryTranscoder |}.

(** A call followed by the await of its awaitable. *)
Definition call_then_await (c : call) : list event := [Called c; Awaited c].

(** A method that leaves one aspect [proj] of the instance as it was. *)
Definition keeps {A X} (proj : repo -> X) (m : M A) : Prop :=
  forall s, proj (self (snd (m s))) = proj (self s).

(** The same state, for an instance whose config is changed by [f]. *)
Definition with_config (f : ConnConfig -> ConnConfig) (s : state) : state :=
  {| world := world s;
     trace := trace s;
     self := {| conn := conn (self s);
                cluster := cluster (self s);
                conn_config := f (conn_config (self s)) |} |}.

(** A method that neither reads nor writes the config of the instance:
    it runs the same under any change of the config. *)
Definition config_blind {A} (f : ConnConfig -> ConnConfig) (m : M A) : Prop :=
  forall s, m (with_config f s) = (fst (m s), with_config f (snd (m s))).

(** A method that only adds to the trace. *)
Definition extends_trace {A} (m : M A) (P : event -> Prop) : Prop :=
  forall s, exists evs, trace (snd (m s)) = (trace s ++ evs)%list /\ Forall P evs.

End OnlineRepo.

Arguments conn {D} r.
Arguments cluster {D} r.
Arguments conn_config {D} r.
Arguments world {D} s.
Arguments trace {D} s.
Arguments self {D} s.
Arguments pending_call {D A} p.
Arguments pending_run {D A} p.

End Conn.

(* ===================================================================== *)
(** ** An in-memory SDK *)
(* ===================================================================== *)

(** A cluster held in memory, behind the [Driver] interface, to run the
    repository on concrete inputs. Its transcoders are the SDK's: without
    options a value is stored as JSON and read back from JSON; with
    [RawBinaryTranscoder] only [bytes] are stored and only binary documents
    are read; a transcoder refuses a document of the other format. An
    operation acts when it is awaited. *)
Module Mem.
Import Py Config Sdk.

(** A stored document, with the format its transcoder flagged. *)
Inductive doc : Type :=
| JsonDoc (v : pyval)
| BinaryDoc (b : list byte).

(** A collection handle: bucket, scope and collection names. *)
Definition collection : Type := (string * string * string)%type.

Definition collection_eqb (a b : collection) : bool :=
  let '(b1, s1, c1) := a in
  let '(b2, s2, c2) := b in
  String.eqb b1 b2 && String.eqb s1 s2 && String.eqb c1 c2.

Record world : Type := {
  online : bool;
  buckets : list string;
  docs : list (collection * string * doc);
  answers : list (string * QueryResult);
  mutations : nat
}.

Record MutationResult : Type := { cas : nat }.

Definition timeout : exn := CouchbaseException "UnAmbiguousTimeoutException".
Definition bucket_not_found : exn := CouchbaseException "BucketNotFoundException".
Definition value_format : exn := CouchbaseException "ValueFormatException".
Definition parsing_failed : exn := CouchbaseException "ParsingFailedException".

Fixpoint find_doc (l : list (collection * string * doc)) (c : collection) (key : string)
  : option doc :=
  match l with
  | [] => None
  | (c', key', d) :: rest =>
      if collection_eqb c' c && String.eqb key' key then Some d else find_doc rest c key
  end.

Fixpoint remove_doc (l : list (collection * string * doc)) (c : collection) (key : string)
  : list (collection * string * doc) :=
  match l with
  | [] => []
  | (c', key', d) :: rest =>
      if collection_eqb c' c && String.eqb key' key then remove_doc rest c key
      else (c', key', d) :: remove_doc rest c key
  end.

(** The key of a JSON object member, as [json.dumps] writes it. *)
Definition json_key (k : pyval) : res string :=
  match k with
  | PStr s => Ok s
  | PInt n => Ok (repr_int n)
  | PBool true => Ok "true"
  | PBool false => Ok "false"
  | PNone => Ok "null"
  | _ => Raise TypeError
  end.

(** [json.loads(json.dumps(v))]. *)
Fixpoint json_roundtrip (v : pyval) : res pyval :=
  match v with
  | PNone | PBool _ | PInt _ | PStr _ => Ok v
  | PBytes _ => Raise TypeError
  | PList xs =>
      res_bind
        ((fix items (l : list pyval) : res (list pyval) :=
            match l with
            | [] => Ok []
            | x :: l' =>
                res_bind (json_roundtrip x) (fun y =>
                res_bind (items l') (fun ys => Ok (y :: ys)))
            end) xs)
        (fun ys => Ok (PList ys))
  | PDict kvs =>
      res_bind
        ((fix members (l : list (pyval * pyval)) (acc : list (pyval * pyval))
            : res (list (pyval * pyval)) :=
            match l with
            | [] => Ok acc
            | (k, x) :: l' =>
                res_bind (json_key k) (fun s =>
                res_bind (json_roundtrip x) (fun y =>
                members l' (dict_set acc (PStr s) y)))
            end) kvs [])
        (fun members => Ok (PDict members))
  end.

(** Encoding a value for storage. *)
Definition encode (options : option UpsertOptions) (v : pyval) : res doc :=
  match options with
  | None =>
      match v with
      | PBytes _ => Raise value_format
      | _ => res_bind (json_roundtrip v) (fun j => Ok (JsonDoc j))
      end
  | Some {| upsert_transcoder := RawBinaryTranscoder |} =>
      match v with
      | PBytes b => Ok (BinaryDoc b)
      | _ => Raise value_format
      end
  end.

(** Decoding a stored document. *)
Definition decode (options : option GetOptions) (d : doc) : res pyval :=
  match options, d with
  | None, JsonDoc v => Ok v
  | None, BinaryDoc _ => Raise value_format
  | Some {| get_transcoder := RawBinaryTranscoder |}, BinaryDoc b => Ok (PBytes b)
  | Some {| get_transcoder := RawBinaryTranscoder |}, JsonDoc _ => Raise value_format
  end.

Definition reach {A} (w : world) (r : res A) : res A * world :=
  if online w then (r, w) else (Raise timeout, w).

Definition get (c : collection) (key : string) (options : option GetOptions)
  : awaitable world GetResult :=
  fun w =>
    reach w
      match find_doc (docs w) c key with
      | None => Raise DocumentNotFoundException
      | Some d => res_bind (decode options d) (fun v => Ok {| value := v |})
      end.

Definition upsert (c : collection) (key : string) (v : pyval)
    (options : option UpsertOptions) : awaitable world MutationResult :=
  fun w =>
    if online w then
      match encode options v with
      | Raise e => (Raise e, w)
      | Ok d =>
          (Ok {| cas := S (mutations w) |},
           {| online := online w;
              buckets := buckets w;
              docs := (c, key, d) :: remove_doc (docs w) c key;
              answers := answers w;
              mutations := S (mutations w) |})
      end
    else (Raise timeout, w).

Fixpoint answer (l : list (string * QueryResult)) (statement : string) : res QueryResult :=
  match l with
  | [] => Raise parsing_failed
  | (q, rows) :: rest => if String.eqb q statement then Ok rows else answer rest statement
  end.

Definition has_bucket (w : world) (name : string) : bool :=
  existsb (String.eqb name) (buckets w).

Definition driver : Driver :=
  {| W := world;
     cluster_t := string;
     bucket_t := string;
     scope_t := (string * string)%type;
     collection_t := collection;
     mutation_t := MutationResult;
     Cluster_connect := fun connstr _ w => (Ok (fun w => reach w (Ok connstr)), w);
     cluster_on_connect := fun _ w => (Ok (fun w => reach w (Ok tt)), w);
     cluster_bucket := fun _ name w => (Ok name, w);
     bucket_on_connect := fun name w =>
       (Ok (fun w => reach w (if has_bucket w name then Ok tt else Raise bucket_not_found)),
        w);
     bucket_scope := fun b name w => (Ok (b, name), w);
     scope_collection := fun s name w => (Ok (fst s, snd s, name), w);
     collection_get := fun c key options w => (Ok (get c key options), w);
     collection_upsert := fun c key v options w => (Ok (upsert c key v options), w);
     cluster_query := fun _ statement w => reach w (answer (answers w) statement) |}.

(** The module-level [connection] of Conn.py. *)
Definition connection : ConnConfig :=
  Config.__init__ "localhost" "Administrator" "password" "test"
    (Some "test") (Some "test") None None None None None None.

(** A cluster that answers, with bucket [test] and no document. *)
Definition cluster0 : world :=
  {| online := true; buckets := ["test"]; docs := []; answers := []; mutations := O |}.

(** The same cluster, out of reach. *)
Definition offline : world :=
  {| online := false; buckets := ["test"]; docs := []; answers := []; mutations := O |}.

(** A new instance over a world. *)
Definition fresh (w : world) (conn_config : ConnConfig) : Conn.state driver :=
  Conn.Build_state driver w [] (Conn.__init__ driver conn_config).

(** The state an instance is in after a successful [initialize_repo]. *)
Definition bound (w : world) (conn_config : ConnConfig) : Conn.state driver :=
  snd (Conn.initialize_repo driver (fresh w conn_config)).

(** The same state with an empty trace. *)
Definition quiet (s : Conn.state driver) : Conn.state driver :=
  Conn.Build_state driver (Conn.world s) [] (Conn.self s).

(** A bound instance on [cluster0], before any further call. *)
Definition ready : Conn.state driver := quiet (bound cluster0 connection).

(** The same state once the cluster is out of reach. *)
Definition unplugged (s : Conn.state driver) : Conn.state driver :=
  Conn.Build_state driver
    {| online := false;
       buckets := buckets (Conn.world s);
       docs := docs (Conn.world s);
       answers := answers (Conn.world s);
       mutations := mutations (Conn.world s) |}
    (Conn.trace s) (Conn.self s).

(** The same state with the query service answering [statement]. *)
Definition answering (statement : string) (rows : QueryResult) (s : Conn.state driver)
  : Conn.state driver :=
  Conn.Build_state driver
    {| online := online (Conn.world s);
       buckets := buckets (Conn.world s);
       docs := docs (Conn.world s);
       answers := (statement, rows) :: answers (Conn.world s);
       mutations := mutations (Conn.world s) |}
    (Conn.trace s) (Conn.self s).

(** The same state with a document stored in the bound collection. *)
Definition holding (key : string) (d : doc) (s : Conn.state driver) : Conn.state driver :=
  Conn.Build_state driver
    {| online := online (Conn.world s);
       buckets := buckets (Conn.world s);
       docs := (("test", "test", "test"), key, d) :: docs (Conn.world s);
       answers := answers (Conn.world s);
       mutations := mutations (Conn.world s) |}
    (Conn.trace s) (Conn.self s).

(** A config whose connect timeout is more than [timedelta] can hold. *)
Definition endless : ConnConfig :=
  Config.__init__ "localhost" "Administrator" "password" "test"
    None None None None (Some (86400 * 1000000000)) None None None.

(** A config that names a bucket the cluster does not have. *)
Definition elsewhere : ConnConfig :=
  Config.__init__ "localhost" "Administrator" "password" "nowhere"
    None None None None None None None None.

(** Running one method after another, whatever the first one gave. *)
Definition after {A B} (m : Conn.M driver A) (k : Conn.M driver B) : Conn.M driver B :=
  fun s => k (snd (m s)).

(** [test_connection] of Conn.py, from the state of a new instance. *)
Definition test_connection : Conn.M driver unit :=
  Conn.bind driver (Conn.initialize_repo driver) (fun _ =>
  Conn.bind driver (Conn.validate driver) (fun _ =>
  Conn.bind driver (Conn.save driver "101" (PStr "ok") false) (fun _ =>
  Conn.bind driver (Conn.find_by_key driver "foo" false) (fun _ =>
  Conn.ret driver tt)))).

End Mem.

(* ===================================================================== *)
(** ** Properties *)
(* ===================================================================== *)

Module Facts.
Import Py Config Sdk Conn.

Lemma skipn_length_app {A} (l x : list A) : skipn (List.length l) (l ++ x) = x.
Proof. induction l as [|a l IH]; simpl; [reflexivity | exact IH]. Qed.

Section Generic.
Context (D : Driver).

(** *** Methods that do not look at the config *)

Section Blind.
Variable f : ConnConfig -> ConnConfig.

Lemma blind_ret {A} (a : A) : config_blind D f (ret D a).
Proof. intro s; reflexivity. Qed.

Lemma blind_raise {A} (e : exn) : config_blind D f (@raise D A e).
Proof. intro s; reflexivity. Qed.

Lemma blind_of_res {A} (r : res A) : config_blind D f (of_res D r).
Proof. intro s; reflexivity. Qed.

Lemma blind_emit ev : config_blind D f (emit D ev).
Proof. intro s; reflexivity. Qed.

Lemma blind_on_world {A} (g : W D -> res A * W D) : config_blind D f (on_world D g).
Proof.
  intro s; unfold on_world; simpl.
  destruct (g (world s)) as [r w]; reflexivity.
Qed.

Lemma blind_self_conn : config_blind D f (self_conn D).
Proof. intro s; unfold self_conn; simpl. destruct (conn (self s)); reflexivity. Qed.

Lemma blind_self_cluster : config_blind D f (self_cluster D).
Proof. intro s; unfold self_cluster; simpl. destruct (cluster (self s)); reflexivity. Qed.

Lemma blind_set_cluster c : config_blind D f (set_cluster D c).
Proof. intro s; reflexivity. Qed.

Lemma blind_set_conn c : config_blind D f (set_conn D c).
Proof. intro s; reflexivity. Qed.

Lemma blind_bind {A B} (m : M D A) (k : A -> M D B) :
  config_blind D f m -> (forall a, config_blind D f (k a)) ->
  config_blind D f (bind D m k).
Proof.
  intros Hm Hk s. unfold bind. rewrite Hm.
  destruct (m s) as [[a|e] s']; simpl.
  - apply Hk.
  - reflexivity.
Qed.

Lemma blind_try_except {A} (m : M D A) (h : exn -> M D A) :
  config_blind D f m -> (forall e, config_blind D f (h e)) ->
  config_blind D f (try_except D m h).
Proof.
  intros Hm Hh s. unfold try_except. rewrite Hm.
  destruct (m s) as [[a|e] s']; simpl.
  - reflexivity.
  - apply Hh.
Qed.

Lemma blind_if {A} (b : bool) (m1 m2 : M D A) :
  config_blind D f m1 -> config_blind D f m2 ->
  config_blind D f (if b then m1 else m2).
Proof. destruct b; auto. Qed.

Lemma blind_call_async {A} c (g : W D -> res (awaitable (W D) A) * W D) :
  config_blind D f (call_async D c g).
Proof.
  unfold call_async.
  apply blind_bind; [apply blind_emit | intros _].
  apply blind_bind; [apply blind_on_world | intro run; apply blind_ret].
Qed.

Lemma blind_call_sync {A} c (g : W D -> res A * W D) :
  config_blind D f (call_sync D c g).
Proof.
  unfold call_sync.
  apply blind_bind; [apply blind_emit | intros _; apply blind_on_world].
Qed.

Lemma blind_await {A} (p : pending D A) : config_blind D f (await D p).
Proof.
  unfold await.
  apply blind_bind; [apply blind_emit | intros _; apply blind_on_world].
Qed.

Lemma blind_fmap {A B} (g : A -> B) (m : M D A) :
  config_blind D f m -> config_blind D f (fmap D g m).
Proof.
  intro Hm. unfold fmap.
  apply blind_bind; [exact Hm | intro a; apply blind_ret].
Qed.

Lemma blind_for_items items (body : string -> pyval -> M D unit) :
  (forall k v, config_blind D f (body k v)) ->
  config_blind D f (for_items D items body).
Proof.
  intro Hb. induction items as [|[k v] rest IH]; simpl.
  - apply blind_ret.
  - apply blind_bind; [apply Hb | intros _; exact IH].
Qed.

End Blind.

Create HintDb blind.
#[local] Hint Resolve blind_ret blind_raise blind_of_res blind_emit blind_on_world
  blind_self_conn blind_self_cluster blind_set_cluster blind_set_conn
  blind_call_async blind_call_sync blind_await : blind.

Ltac blind :=
  repeat first
    [ apply blind_try_except
    | apply blind_bind
    | apply blind_if
    | apply blind_fmap
    | apply blind_for_items
    | solve [auto with blind]
    | match goal with |- config_blind _ _ (match ?e with _ => _ end) => destruct e end
    | intro ].

Lemma blind_create_conn f cfg : config_blind D f (create_conn D cfg).
Proof. unfold create_conn. blind. Qed.

Lemma blind_validate f : config_blind D f (validate D).
Proof. unfold validate. blind. Qed.

Lemma blind_find_by_key f key compress : config_blind D f (find_by_key D key compress).
Proof. unfold find_by_key. blind. Qed.

Lemma blind_save f key value compress : config_blind D f (save D key value compress).
Proof. unfold save. blind. Qed.

Lemma blind_save_all f items : config_blind D f (save_all D items).
Proof. unfold save_all. blind. Qed.

Lemma blind_native_query f query : config_blind D f (native_query D query).
Proof. unfold native_query. blind. Qed.

(** *** Running a method *)

Ltac monad :=
  cbv beta iota zeta delta
    [try_except bind ret raise of_res emit on_world call_async call_sync await
     self_conn self_cluster set_cluster set_conn fmap];
  simpl.

Lemma comprehension_rows (q : QueryResult) : forall acc,
  completes q = true -> comprehension q acc = Ok (acc ++ rows_of q)%list.
Proof.
  induction q as [|row rest IH|e]; intros acc Hc; simpl in *.
  - rewrite app_nil_r. reflexivity.
  - rewrite (IH _ Hc), <- app_assoc. reflexivity.
  - discriminate.
Qed.

(** C3. [initialize_repo] on an instance whose [conn] is already bound
    returns at once: it gives [None], and the world, the trace of SDK calls
    and the instance are exactly what they were, so no authenticator is
    built and no session is opened a second time. *)
Theorem initialize_repo_idempotent (s : state D) (c : collection_t D) :
  conn (self s) = Some c ->
  initialize_repo D s = (Ok tt, s).
Proof.
  intro Hc. unfold initialize_repo, try_except, ret. rewrite Hc. reflexivity.
Qed.

(** C5. On a bound instance, when the lookup of [key] reports that the
    document does not exist, [find_by_key] returns [None] and does not
    raise, whether [compress] is true or false. *)
Theorem find_by_key_absent (s : state D) (c : collection_t D)
    (key : string) (compress : bool) :
  conn (self s) = Some c ->
  fst (lookup D c key None (world s)) = Raise DocumentNotFoundException ->
  fst (find_by_key D key compress s) = Ok PNone.
Proof.
  intros Hc Hl.
  unfold find_by_key, lookup in *. monad. rewrite Hc; simpl.
  destruct (collection_get D c key None (world s)) as [[run|e] w]; simpl in *.
  - destruct (run w) as [[r|e] w']; simpl in *.
    + discriminate.
    + inversion Hl; subst. reflexivity.
  - inversion Hl; subst. reflexivity.
Qed.

(** Over a result that a plain [for] can walk to its end, as a
    synchronous SDK returns, the comprehension of [native_query] gives the
    list of all the rows the iteration yields, in that order; a result that
    yields no row gives the empty list. *)
Theorem native_query_rows (s : state D) (cl : cluster_t D)
    (query : string) (q : QueryResult) :
  cluster (self s) = Some cl ->
  fst (cluster_query D cl query (world s)) = Ok q ->
  completes q = true ->
  fst (native_query D query s) = Ok (rows_of q) /\
  (q = Stop -> fst (native_query D query s) = Ok []).
Proof.
  intros Hc Hq Hd.
  assert (E : fst (native_query D query s) = Ok (rows_of q)).
  { unfold native_query. monad. rewrite Hc; simpl.
    destruct (cluster_query D cl query (world s)) as [r w]; simpl in *.
    subst r; simpl. rewrite (comprehension_rows q [] Hd). reflexivity. }
  split; [exact E | intro Hs; rewrite E, Hs; reflexivity].
Qed.

(** C8. [validate] looks up [dummykey] with the raw transcoder. When the
    lookup reports that the document does not exist, [validate] returns
    [None] and does not raise; when the lookup raises anything else, as it
    does when the session cannot be reached, [validate] raises it. *)
Theorem validate_outcomes (s : state D) (c : collection_t D) :
  conn (self s) = Some c ->
  let outcome :=
    fst (lookup D c "dummykey" (Some {| get_transcoder := RawBinaryTranscoder |}) (world s)) in
  (outcome = Raise DocumentNotFoundException -> fst (validate D s) = Ok None) /\
  (forall e, outcome = Raise e -> e <> DocumentNotFoundException ->
             fst (validate D s) = Raise e).
Proof.
  intros Hc outcome. subst outcome.
  unfold validate, lookup. monad. rewrite Hc; simpl.
  destruct (collection_get D c "dummykey" _ (world s)) as [[run|e0] w]; simpl.
  - destruct (run w) as [[r|e0] w']; simpl.
    + split; [discriminate | intros e He; discriminate].
    + split.
      * intro He; inversion He; subst; reflexivity.
      * intros e He Hne; inversion He; subst.
        destruct e; try reflexivity. contradiction.
  - split.
    + intro He; inversion He; subst; reflexivity.
    + intros e He Hne; inversion He; subst.
      destruct e; try reflexivity. contradiction.
Qed.

(** *** The text fallback of [find_by_key] *)

Lemma py_str_total (v : pyval) : exists t, py_str v = Ok (PStr t).
Proof. destruct v; simpl; eauto. Qed.

(** What [find_by_key] does with the content of a document it found, when
    [compress] is false. *)
Lemma find_by_key_found (s : state D) (c : collection_t D) (key : string) (v : pyval) :
  conn (self s) = Some c ->
  fst (lookup D c key None (world s)) = Ok {| value := v |} ->
  fst (find_by_key D key false s) =
    match py_dict v with
    | Ok d => Ok d
    | Raise ValueError => py_str v
    | Raise DocumentNotFoundException => Ok PNone
    | Raise e => Raise e
    end.
Proof.
  intros Hc Hl.
  unfold find_by_key, lookup, content_as in *. monad. rewrite Hc; simpl.
  destruct (collection_get D c key None (world s)) as [[run|e] w]; simpl in *;
    [|discriminate].
  destruct (run w) as [[r|e] w']; simpl in *; [|discriminate].
  inversion Hl; subst r; simpl.
  destruct (py_str_total v) as [t Ht]. rewrite Ht.
  destruct (py_dict v) as [d|e]; [reflexivity|].
  destruct e; reflexivity.
Qed.

(** When [dict(content)] raises [ValueError], the content comes back as
    text. *)
Lemma find_by_key_text_fallback (s : state D) (c : collection_t D)
    (key : string) (v : pyval) :
  conn (self s) = Some c ->
  fst (lookup D c key None (world s)) = Ok {| value := v |} ->
  py_dict v = Raise ValueError ->
  fst (find_by_key D key false s) = py_str v.
Proof.
  intros Hc Hl Hd. rewrite (find_by_key_found s c key v Hc Hl), Hd. reflexivity.
Qed.

(** C6. The fallback of [find_by_key] only answers [ValueError]: on a
    bound instance, when the document is found and [dict(content)] raises
    [TypeError], as it does for a number, [None], a boolean or a list of
    numbers, [find_by_key] with [compress] false raises [TypeError] instead
    of returning the content as text. *)
Theorem find_by_key_fallback_misses_type_error (s : state D) (c : collection_t D)
    (key : string) (v : pyval) :
  conn (self s) = Some c ->
  fst (lookup D c key None (world s)) = Ok {| value := v |} ->
  py_dict v = Raise TypeError ->
  fst (find_by_key D key false s) = Raise TypeError.
Proof.
  intros Hc Hl Hd. rewrite (find_by_key_found s c key v Hc Hl), Hd. reflexivity.
Qed.

(** *** The trace of [save_all] *)

Lemma try_reraise {A} (m : M D A) (s : state D) :
  try_except D m (fun e => raise D e) s = m s.
Proof. unfold try_except, raise. destruct (m s) as [[a|e] s']; reflexivity. Qed.

Lemma save_all_trace (items : list (string * pyval)) : forall s : state D,
  exists n, (n <= List.length items)%nat /\
    trace (snd (save_all D items s)) = (trace s ++ map upsert_call (firstn n items))%list /\
    (fst (save_all D items s) = Ok tt -> n = List.length items).
Proof.
  unfold save_all. intro s. rewrite try_reraise. revert s.
  induction items as [|[k v] rest IH]; intro s.
  - exists O. simpl. rewrite app_nil_r. repeat split; auto.
  - simpl. monad. destruct (conn (self s)) as [c|]; simpl.
    + destruct (collection_upsert D c k v None (world s)) as [[run|e] w]; simpl.
      * match goal with |- context [for_items D rest ?b ?s1] =>
          destruct (IH s1) as (n & Hn & Ht & Hr)
        end.
        exists (S n). split; [simpl; lia|]. split.
        -- etransitivity; [exact Ht|]. simpl. rewrite <- app_assoc. reflexivity.
        -- intro H. simpl. f_equal. apply Hr. exact H.
      * exists 1%nat. simpl. unfold upsert_call; simpl.
        repeat split; [lia | discriminate].
    + exists O. simpl. rewrite app_nil_r.
      repeat split; [lia | discriminate].
Qed.

Lemma upsert_calls_not_awaits (l : list (string * pyval)) :
  Forall (fun ev => is_await ev = false) (map upsert_call l).
Proof. induction l; simpl; constructor; auto. Qed.

(** C2. [save_all] makes one [upsert] call per entry, in the order of the
    entries and up to the first call that raises, and awaits none of the
    awaitables these calls return: no backend call is run to completion
    before [save_all] returns. *)
Theorem save_all_never_awaits (items : list (string * pyval)) (s : state D) :
  Forall (fun ev => is_await ev = false) (events_of D (save_all D items) s) /\
  exists n,
    events_of D (save_all D items) s = map upsert_call (firstn n items) /\
    (fst (save_all D items s) = Ok tt -> n = List.length items).
Proof.
  destruct (save_all_trace items s) as (n & Hn & Ht & Hr).
  assert (E : events_of D (save_all D items) s = map upsert_call (firstn n items)).
  { unfold events_of. rewrite Ht. apply skipn_length_app. }
  split.
  - rewrite E. apply upsert_calls_not_awaits.
  - exists n. split; assumption.
Qed.

(** *** The bind sequence *)

Lemma timedelta_seconds_cases (n : Z) :
  timedelta_seconds n = Ok {| total_seconds := n |} \/
  timedelta_seconds n = Raise OverflowError.
Proof. unfold timedelta_seconds. destruct (_ <? _); auto. Qed.

Ltac split_calls :=
  repeat match goal with
    | |- context [match ?x with _ => _ end] =>
        lazymatch x with
        | context [match _ with _ => _ end] => fail
        | _ => destruct x as [[?|?] ?]; simpl
        end
    end.

Ltac leaf k :=
  exists k;
  split; [lia | split; [reflexivity | let H := fresh in intro H; first [reflexivity | discriminate H]]].

(** The calls and awaits of [create_conn] are the bind sequence, cut after
    the step that raises, and complete when [create_conn] returns. *)
Lemma create_conn_events (cfg : ConnConfig) (s : state D) :
  exists n, (n <= 10)%nat /\
    events_of D (create_conn D cfg) s = firstn n (bind_sequence_of cfg) /\
    (fst (create_conn D cfg s) = Ok tt -> n = 10%nat).
Proof.
  unfold create_conn, events_of, bind_sequence_of, bind_sequence.
  rewrite try_reraise.
  destruct (timedelta_seconds_cases (connect_timeout cfg)) as [Hc|Hc]; rewrite Hc;
    destruct (timedelta_seconds_cases (kv_timeout cfg)) as [Hk|Hk]; rewrite Hk;
    monad; split_calls; rewrite <- ?app_assoc, skipn_length_app; simpl;
    first [leaf 1%nat | leaf 2%nat | leaf 3%nat | leaf 4%nat | leaf 5%nat
          | leaf 6%nat | leaf 7%nat | leaf 8%nat | leaf 9%nat | leaf 10%nat].
Qed.

Lemma create_conn_binds (cfg : ConnConfig) (s : state D) :
  fst (create_conn D cfg s) = Ok tt ->
  exists c, conn (self (snd (create_conn D cfg s))) = Some c.
Proof.
  unfold create_conn. rewrite try_reraise.
  destruct (timedelta_seconds_cases (connect_timeout cfg)) as [Hc|Hc]; rewrite Hc;
    destruct (timedelta_seconds_cases (kv_timeout cfg)) as [Hk|Hk]; rewrite Hk;
    monad; split_calls; intro H; try discriminate H; eauto.
Qed.

(** A step that raises ends [create_conn]: the exception is raised to the
    caller and no collection is stored. *)
Lemma create_conn_aborts (cfg : ConnConfig) (s : state D) (e : exn) :
  fst (create_conn D cfg s) = Raise e ->
  conn (self (snd (create_conn D cfg s))) = conn (self s).
Proof.
  unfold create_conn. rewrite try_reraise.
  destruct (timedelta_seconds_cases (connect_timeout cfg)) as [Hc|Hc]; rewrite Hc;
    destruct (timedelta_seconds_cases (kv_timeout cfg)) as [Hk|Hk]; rewrite Hk;
    monad; split_calls; intro H; try discriminate H; reflexivity.
Qed.

(** C4. The readiness-wait timeout of the config does not reach the bind
    sequence: [create_conn] runs the same, step for step, whatever
    [wait_timeout] is, and its wait for cluster readiness is the bare
    [await self.cluster.on_connect()] of the bind sequence. *)
Theorem create_conn_ignores_wait_timeout (cfg : ConnConfig) (t : Z) (s : state D) :
  create_conn D (with_wait_timeout cfg t) s = create_conn D cfg s /\
  bind_sequence_of (with_wait_timeout cfg t) = bind_sequence_of cfg /\
  exists n, events_of D (create_conn D cfg) s = firstn n (bind_sequence_of cfg).
Proof.
  split; [reflexivity | split; [reflexivity|]].
  destruct (create_conn_events cfg s) as (n & _ & E & _). exists n. exact E.
Qed.

(** *** TLS and SASL settings *)

Lemma blind_initialize_repo (ssl' : bool) (ca' : option string) (sasl' : string) :
  config_blind D (fun c => with_security c ssl' ca' sasl') (initialize_repo D).
Proof.
  intro s. unfold initialize_repo.
  rewrite !try_reraise. simpl.
  destruct (conn (self s)) as [c|].
  - reflexivity.
  - change (create_conn D (with_security (conn_config (self s)) ssl' ca' sasl'))
      with (create_conn D (conn_config (self s))).
    apply blind_create_conn.
Qed.

(** C10. The TLS flag, the CA certificate path and the SASL mechanism of
    the config have no effect: every operation of the repository gives the
    same result, the same world and the same SDK calls when these three
    fields are changed, and leaves the same instance up to these fields.
    Whatever they are, a session is only ever opened by the connect call of
    the bind sequence, on [couchbase://] followed by the host, with the
    authenticator built from the user name and the password. *)
Theorem security_settings_have_no_effect
    (ssl' : bool) (ca' : option string) (sasl' : string) (o : operation) (s : state D) :
  let f := fun c => with_security c ssl' ca' sasl' in
  run D o (with_config D f s) = (fst (run D o s), with_config D f (snd (run D o s))) /\
  (exists n, events_of D (create_conn D (f (conn_config (self s)))) s =
             firstn n (bind_sequence_of (conn_config (self s)))) /\
  forall connstr options,
    In (Called (CConnect connstr options)) (bind_sequence_of (conn_config (self s))) ->
    connstr = ("couchbase://" ++ host_or_dsn (conn_config (self s)))%string /\
    authenticator options =
      {| auth_username := user_name (conn_config (self s));
         auth_password := password (conn_config (self s)) |}.
Proof.
  intro f. split; [|split].
  - revert s. change (config_blind D f (run D o)).
    destruct o; simpl; apply blind_fmap.
    + apply blind_initialize_repo.
    + apply blind_validate.
    + apply blind_find_by_key.
    + apply blind_save.
    + apply blind_save_all.
    + apply blind_native_query.
  - destruct (create_conn_events (conn_config (self s)) s) as (n & _ & E & _).
    exists n. exact E.
  - intros connstr options Hin.
    unfold bind_sequence_of, bind_sequence in Hin. simpl in Hin.
    repeat (destruct Hin as [Hin|Hin]; try discriminate Hin).
    + inversion Hin; subst. split; reflexivity.
    + contradiction.
Qed.

End Generic.
End Facts.

(* ===================================================================== *)
(** ** Properties of [ConnConfig] *)
(* ===================================================================== *)

Module ConfigFacts.
Import Py Config.

(** C9, as the code has it. Construction always succeeds and assigns every
    attribute: the four required ones from their arguments, the others from
    their argument or, when it is left out, from the default of the
    signature. No argument is checked, so the bucket name of the config is
    whatever string was passed. *)
Theorem init_sets_every_field
    (h u p b : string) (sc co : option string) (tls : option bool)
    (ca : option string) (ct kt wt : option Z) (sm : option string) :
  let c := Config.__init__ h u p b sc co tls ca ct kt wt sm in
  host_or_dsn c = h /\ user_name c = u /\ password c = p /\ bucket_name c = b /\
  scope_name c = default sc "_default" /\
  collection_name c = default co "_default" /\
  ssl c = default tls false /\
  ca_cert c = ca /\
  connect_timeout c = default ct 10 /\
  kv_timeout c = default kt 5 /\
  wait_timeout c = default wt 5 /\
  sasl_mech c = default sm "PLAIN".
Proof. simpl. repeat split. Qed.

(** C9, as stated, fails: a config can be constructed with an empty bucket
    name. *)
Lemma init_accepts_empty_bucket_name :
  ~ (forall (h u p b : string) (sc co : option string) (tls : option bool)
            (ca : option string) (ct kt wt : option Z) (sm : option string),
       bucket_name (Config.__init__ h u p b sc co tls ca ct kt wt sm) <> EmptyString).
Proof.
  intro H.
  apply (H "localhost" "Administrator" "password" EmptyString
           None None None None None None None None).
  reflexivity.
Qed.

End ConfigFacts.

(* ===================================================================== *)
(** ** The repository on the in-memory SDK *)
(* ===================================================================== *)

Module Runs.
Import Py Config Sdk Mem.

Definition test_collection : collection := ("test", "test", "test").

(** The scenario of Conn.py and of the specification. *)
Example test_connection_runs : fst (test_connection (fresh cluster0 connection)) = Ok tt.
Proof. reflexivity. Qed.

Example scenario_101 :
  fst (Conn.bind driver (Conn.save driver "101" (PStr "ok") false)
         (fun _ => Conn.find_by_key driver "101" false) ready) = Ok (PStr "ok") /\
  fst (Conn.find_by_key driver "no-such-key" false ready) = Ok PNone.
Proof. split; reflexivity. Qed.

(** The bind sequence on a cluster out of reach stops at the connect. *)
Example bind_sequence_aborts :
  fst (Conn.initialize_repo driver (fresh offline connection)) = Raise timeout /\
  Conn.events_of driver (Conn.initialize_repo driver) (fresh offline connection) =
    firstn 3 (Conn.bind_sequence_of connection) /\
  Conn.conn (Conn.self (snd (Conn.initialize_repo driver (fresh offline connection)))) = None.
Proof. repeat split. Qed.

Ltac run_on_ready :=
  let r := eval vm_compute in ready in
  change ready with r;
  cbv beta iota zeta delta
    [Conn.save Conn.find_by_key Conn.try_except Conn.bind Conn.ret Conn.raise
     Conn.of_res Conn.emit Conn.on_world Conn.call_async Conn.await Conn.self_conn
     Conn.events_of driver collection_upsert collection_get upsert get reach];
  simpl.

(** A key that is not in the store is one whose lookup reports that the
    document does not exist. *)
Lemma find_by_key_absent_in_store (s : Conn.state driver) (c : collection)
    (key : string) (compress : bool) :
  Conn.conn (Conn.self s) = Some c ->
  online (Conn.world s) = true ->
  find_doc (docs (Conn.world s)) c key = None ->
  fst (Conn.find_by_key driver key compress s) = Ok PNone.
Proof.
  intros Hc Ho Hd.
  cbv beta iota zeta delta
    [Conn.find_by_key Conn.try_except Conn.bind Conn.ret Conn.raise Conn.of_res
     Conn.emit Conn.on_world Conn.call_async Conn.await Conn.self_conn].
  rewrite Hc; simpl. unfold get, reach. rewrite Ho, Hd. reflexivity.
Qed.

(** C1. The round trip fails in both modes. With [compress] true, [save]
    stores the bytes through the raw transcoder and [find_by_key] looks the
    key up without any transcoder, so the lookup refuses the binary
    document and [find_by_key] raises, for every key and every byte
    string. With [compress] false, every saved integer comes back as a
    [TypeError], and a saved empty string comes back as an empty
    dictionary. *)
Theorem save_then_find_by_key_fails :
  (forall (key : string) (b : list byte),
     is_ok (fst (Conn.save driver key (PBytes b) true ready)) = true /\
     fst (Conn.bind driver (Conn.save driver key (PBytes b) true)
            (fun _ => Conn.find_by_key driver key true) ready) = Raise value_format) /\
  (forall key : string,
     Conn.events_of driver (Conn.find_by_key driver key true) ready =
       [Called (CGet key None); Awaited (CGet key None)]) /\
  (forall (key : string) (n : Z),
     is_ok (fst (Conn.save driver key (PInt n) false ready)) = true /\
     fst (Conn.bind driver (Conn.save driver key (PInt n) false)
            (fun _ => Conn.find_by_key driver key false) ready) = Raise TypeError) /\
  (forall key : string,
     fst (Conn.bind driver (Conn.save driver key (PStr EmptyString) false)
            (fun _ => Conn.find_by_key driver key false) ready) = Ok (PDict [])).
Proof.
  repeat split; intros; run_on_ready; rewrite ?String.eqb_refl; reflexivity.
Qed.

(** [save_all] on two entries: both calls are made, nothing is awaited, and
    at the return no document has been written. *)
Example save_all_returns_before_any_write :
  let s := Conn.save_all driver [("a", PInt 1); ("b", PInt 2)] ready in
  fst s = Ok tt /\
  Conn.events_of driver (Conn.save_all driver [("a", PInt 1); ("b", PInt 2)]) ready =
    [Called (CUpsert "a" (PInt 1) None); Called (CUpsert "b" (PInt 2) None)] /\
  docs (Conn.world (snd s)) = [] /\
  fst (Conn.save driver "a" (PInt 1) false ready) = Ok {| cas := 1 |} /\
  docs (Conn.world (snd (Conn.save driver "a" (PInt 1) false ready))) =
    [(test_collection, "a", JsonDoc (PInt 1))].
Proof. repeat split. Qed.

(** [save_all] does not see what the backend would answer: entries the
    backend would refuse go through without an exception. *)
Example save_all_hides_refusals :
  fst (Conn.save_all driver [("a", PBytes [x61])] ready) = Ok tt /\
  fst (Conn.save driver "a" (PBytes [x61]) false ready) = Raise value_format /\
  fst (Conn.save_all driver [("a", PInt 1)] (unplugged ready)) = Ok tt.
Proof. repeat split. Qed.

(** *** Instances of the general theorems *)

Lemma initialize_repo_idempotent_witness :
  Conn.initialize_repo driver ready = (Ok tt, ready).
Proof.
  apply (Facts.initialize_repo_idempotent driver ready test_collection).
  reflexivity.
Defined.

Lemma find_by_key_absent_witness :
  fst (Conn.find_by_key driver "no-such-key" false ready) = Ok PNone /\
  fst (Conn.find_by_key driver "no-such-key" true ready) = Ok PNone.
Proof.
  split; apply (Facts.find_by_key_absent driver ready test_collection); reflexivity.
Defined.

Definition two_rows : QueryResult :=
  Yield (PDict [(PStr "id", PInt 1)]) (Yield (PDict [(PStr "id", PInt 2)]) Stop).

Lemma native_query_rows_witness :
  fst (Conn.native_query driver "SELECT id FROM test"
         (answering "SELECT id FROM test" two_rows ready)) =
    Ok [PDict [(PStr "id", PInt 1)]; PDict [(PStr "id", PInt 2)]] /\
  fst (Conn.native_query driver "SELECT id FROM test WHERE false"
         (answering "SELECT id FROM test WHERE false" Stop ready)) = Ok [].
Proof.
  split.
  - apply (proj1 (Facts.native_query_rows driver
             (answering "SELECT id FROM test" two_rows ready)
             "couchbase://localhost" "SELECT id FROM test" two_rows
             eq_refl eq_refl eq_refl)).
  - apply (proj2 (Facts.native_query_rows driver
             (answering "SELECT id FROM test WHERE false" Stop ready)
             "couchbase://localhost" "SELECT id FROM test WHERE false" Stop
             eq_refl eq_refl eq_refl)).
    reflexivity.
Defined.

Lemma validate_outcomes_witness :
  fst (Conn.validate driver ready) = Ok None /\
  fst (Conn.validate driver (unplugged ready)) = Raise timeout.
Proof.
  split.
  - apply (proj1 (Facts.validate_outcomes driver ready test_collection eq_refl)).
    reflexivity.
  - apply (proj2 (Facts.validate_outcomes driver (unplugged ready) test_collection eq_refl)).
    + reflexivity.
    + discriminate.
Defined.

Lemma find_by_key_fallback_misses_type_error_witness :
  fst (Conn.find_by_key driver "k" false
         (snd (Conn.save driver "k" (PInt 5) false ready))) = Raise TypeError.
Proof.
  apply (Facts.find_by_key_fallback_misses_type_error driver
           (snd (Conn.save driver "k" (PInt 5) false ready)) test_collection "k" (PInt 5));
    reflexivity.
Defined.

Lemma save_all_never_awaits_witness :
  Forall (fun ev => is_await ev = false)
    (Conn.events_of driver (Conn.save_all driver [("a", PInt 1); ("b", PInt 2)]) ready).
Proof.
  exact (proj1 (Facts.save_all_never_awaits driver [("a", PInt 1); ("b", PInt 2)] ready)).
Defined.

Lemma security_settings_have_no_effect_witness :
  fst (Conn.run driver Conn.Initialize
         (Conn.with_config driver
            (fun c => with_security c true (Some "/etc/ssl/ca.pem") "SCRAM-SHA-512")
            (fresh cluster0 connection))) =
  fst (Conn.run driver Conn.Initialize (fresh cluster0 connection)) /\
  forall connstr options,
    In (Called (CConnect connstr options)) (Conn.bind_sequence_of connection) ->
    connstr = "couchbase://localhost".
Proof.
  split.
  - exact (f_equal fst
             (proj1 (Facts.security_settings_have_no_effect driver
                       true (Some "/etc/ssl/ca.pem") "SCRAM-SHA-512" Conn.Initialize
                       (fresh cluster0 connection)))).
  - intros connstr options Hin.
    exact (proj1
             (proj2 (proj2 (Facts.security_settings_have_no_effect driver
                              true (Some "/etc/ssl/ca.pem") "SCRAM-SHA-512"
                              Conn.Initialize (fresh cluster0 connection)))
                connstr options Hin)).
Defined.

End Runs.

(* ===================================================================== *)
(** ** Further properties of the repository *)
(* ===================================================================== *)

Module Behaviour.
Import Py Config Sdk Conn.

Ltac monad :=
  cbv beta iota zeta delta
    [try_except bind ret raise of_res emit on_world call_async call_sync await
     self_conn self_cluster set_cluster set_conn fmap];
  simpl.

Ltac split_calls :=
  repeat match goal with
    | |- context [match ?x with _ => _ end] =>
        lazymatch x with
        | context [match _ with _ => _ end] => fail
        | _ => destruct x as [[?|?] ?]; simpl
        end
    end.

Lemma skipn_all_app {A} (l x : list A) : skipn (List.length l) (l ++ x) = x.
Proof. induction l as [|a l IH]; simpl; [reflexivity | exact IH]. Qed.

Section Generic.
Context (D : Driver).

(** *** An instance that was never bound *)

(** X1. On an instance whose [conn] is [None], [validate], [find_by_key]
    and [save] raise [AttributeError] and do nothing else: no SDK call is
    made and the world, the trace and the instance are unchanged. *)
Theorem unbound_document_operations_raise (s : state D) (key : string)
    (value : pyval) (compress : bool) :
  conn (self s) = None ->
  validate D s = (Raise AttributeError, s) /\
  find_by_key D key compress s = (Raise AttributeError, s) /\
  save D key value compress s = (Raise AttributeError, s).
Proof.
  intro Hc. unfold validate, find_by_key, save.
  destruct compress; monad; rewrite Hc; auto.
Qed.

(** X2. On an instance whose [conn] is [None], [save_all] returns [None]
    for an empty mapping and raises [AttributeError] for any other mapping;
    either way it makes no SDK call and changes nothing. *)
Theorem unbound_save_all (s : state D) (items : list (string * pyval)) :
  conn (self s) = None ->
  save_all D items s = (match items with [] => Ok tt | _ => Raise AttributeError end, s).
Proof.
  intro Hc. unfold save_all.
  destruct items as [|[k v] rest]; simpl; monad; [|rewrite Hc]; reflexivity.
Qed.

(** X3. On an instance whose [cluster] is [None], [native_query] raises
    [AttributeError] without any SDK call, whether or not [conn] is
    set. *)
Theorem native_query_without_cluster (s : state D) (query : string) :
  cluster (self s) = None ->
  native_query D query s = (Raise AttributeError, s).
Proof.
  intro Hc. unfold native_query. monad. rewrite Hc. reflexivity.
Qed.

(** *** [save] *)

(** X4. On a bound instance [save] is one [upsert] of the key and value,
    awaited: it passes the raw transcoder exactly when [compress] is true,
    returns what the write returns and raises what the write raises,
    unchanged, leaves the world as the write left it, and makes no other
    SDK call. *)
Theorem save_is_one_awaited_upsert (s : state D) (c : collection_t D)
    (key : string) (value : pyval) (compress : bool) :
  conn (self s) = Some c ->
  let options := save_options compress in
  fst (save D key value compress s) = fst (store D c key value options (world s)) /\
  world (snd (save D key value compress s)) = snd (store D c key value options (world s)) /\
  exists n, (1 <= n <= 2)%nat /\
    events_of D (save D key value compress) s =
      firstn n (call_then_await (CUpsert key value options)).
Proof.
  intros Hc options. subst options.
  unfold save, store, events_of, call_then_await, save_options.
  destruct compress; monad; rewrite Hc; simpl; split_calls;
    rewrite <- ?app_assoc, skipn_all_app;
    (repeat split; try reflexivity);
    first [ exists 2%nat; split; [lia | reflexivity]
          | exists 1%nat; split; [lia | reflexivity] ].
Qed.

(** *** [find_by_key] *)

(** X5. On a bound instance [find_by_key] makes one lookup of the key,
    without options whatever [compress] is, and awaits it; decoding the
    content makes no further SDK call and leaves the world as the lookup
    left it. *)
Theorem find_by_key_is_one_lookup (s : state D) (c : collection_t D)
    (key : string) (compress : bool) :
  conn (self s) = Some c ->
  world (snd (find_by_key D key compress s)) = snd (lookup D c key None (world s)) /\
  exists n, (1 <= n <= 2)%nat /\
    events_of D (find_by_key D key compress) s =
      firstn n (call_then_await (CGet key None)).
Proof.
  intro Hc.
  unfold find_by_key, lookup, events_of, call_then_await, content_as.
  monad. rewrite Hc; simpl.
  destruct (collection_get D c key None (world s)) as [[run|e] w]; simpl.
  - destruct (run w) as [[r|e] w']; simpl.
    + destruct (Facts.py_str_total (value r)) as [t Ht]. rewrite Ht.
      destruct compress.
      * destruct (py_bytes (value r)) as [d|[]]; simpl;
          (split; [reflexivity|]);
          exists 2%nat; (split; [lia|]);
          rewrite <- ?app_assoc, skipn_all_app; reflexivity.
      * destruct (py_dict (value r)) as [d|[]]; simpl;
          (split; [reflexivity|]);
          exists 2%nat; (split; [lia|]);
          rewrite <- ?app_assoc, skipn_all_app; reflexivity.
    + destruct e; simpl; (split; [reflexivity|]);
        exists 2%nat; (split; [lia|]);
        rewrite <- ?app_assoc, skipn_all_app; reflexivity.
  - destruct e; simpl; (split; [reflexivity|]);
      exists 1%nat; (split; [lia|]);
      rewrite <- ?app_assoc, skipn_all_app; reflexivity.
Qed.

(** X6. On a bound instance, an exception of the lookup other than
    [DocumentNotFoundException] (a timeout, a refused document, a lost
    session) is raised by [find_by_key] unchanged, whatever [compress]
    is. *)
Theorem find_by_key_propagates_lookup_errors (s : state D) (c : collection_t D)
    (key : string) (compress : bool) (e : exn) :
  conn (self s) = Some c ->
  fst (lookup D c key None (world s)) = Raise e ->
  e <> DocumentNotFoundException ->
  fst (find_by_key D key compress s) = Raise e.
Proof.
  intros Hc Hl Hne.
  unfold find_by_key, lookup in *. monad. rewrite Hc; simpl.
  destruct (collection_get D c key None (world s)) as [[run|e0] w]; simpl in *.
  - destruct (run w) as [[r|e0] w']; simpl in *; [discriminate|].
    inversion Hl; subst. destruct e; try reflexivity. contradiction.
  - inversion Hl; subst. destruct e; try reflexivity. contradiction.
Qed.

(** X7. On a bound instance, when the lookup finds a document whose content
    is a dictionary, [find_by_key] with [compress] false returns that
    dictionary, entries and order unchanged. *)
Theorem find_by_key_returns_dictionaries (s : state D) (c : collection_t D)
    (key : string) (kvs : list (pyval * pyval)) :
  conn (self s) = Some c ->
  fst (lookup D c key None (world s)) = Ok {| value := PDict kvs |} ->
  fst (find_by_key D key false s) = Ok (PDict kvs).
Proof.
  intros Hc Hl. rewrite (Facts.find_by_key_found D s c key _ Hc Hl). reflexivity.
Qed.

Lemma dict_of_text (a : ascii) (t : string) : py_dict (PStr (String a t)) = Raise ValueError.
Proof. reflexivity. Qed.

(** X8. On a bound instance, when the lookup finds a document whose content
    is text, [find_by_key] with [compress] false returns the text itself if
    it is not empty, and an empty dictionary if it is empty. *)
Theorem find_by_key_on_text (s : state D) (c : collection_t D)
    (key : string) (t : string) :
  conn (self s) = Some c ->
  fst (lookup D c key None (world s)) = Ok {| value := PStr t |} ->
  fst (find_by_key D key false s) =
    match t with
    | EmptyString => Ok (PDict [])
    | _ => Ok (PStr t)
    end.
Proof.
  intros Hc Hl. rewrite (Facts.find_by_key_found D s c key _ Hc Hl).
  destruct t as [|a t]; [reflexivity|]. rewrite dict_of_text. reflexivity.
Qed.





(** *** [validate] *)

(** X10. On a bound instance [validate] is one lookup of [dummykey] with the
    raw transcoder, awaited: when the lookup finds a document, [validate]
    returns that result, and it makes no other SDK call. *)
Theorem validate_is_one_raw_lookup (s : state D) (c : collection_t D) :
  conn (self s) = Some c ->
  (forall r, fst (lookup D c "dummykey" validate_options (world s)) = Ok r ->
             fst (validate D s) = Ok (Some r)) /\
  world (snd (validate D s)) = snd (lookup D c "dummykey" validate_options (world s)) /\
  exists n, (1 <= n <= 2)%nat /\
    events_of D (validate D) s =
      firstn n (call_then_await (CGet "dummykey" validate_options)).
Proof.
  intro Hc.
  unfold validate, lookup, events_of, call_then_await, validate_options.
  monad. rewrite Hc; simpl.
  destruct (collection_get D c "dummykey" _ (world s)) as [[run|e] w]; simpl.
  - destruct (run w) as [[r|e] w']; simpl.
    + split; [intros r0 H; inversion H; reflexivity|].
      split; [reflexivity|].
      exists 2%nat. split; [lia|]. rewrite <- ?app_assoc, skipn_all_app. reflexivity.
    + split; [intros r0 H; discriminate|].
      destruct e; simpl; (split; [reflexivity|]);
        exists 2%nat; (split; [lia|]);
        rewrite <- ?app_assoc, skipn_all_app; reflexivity.
  - split; [intros r0 H; discriminate|].
    destruct e; simpl; (split; [reflexivity|]);
      exists 1%nat; (split; [lia|]);
      rewrite <- ?app_assoc, skipn_all_app; reflexivity.
Qed.

(** *** [native_query] *)

Lemma comprehension_failure (q : QueryResult) : forall acc e,
  failure_of q = Some e -> comprehension q acc = Raise e.
Proof.
  induction q as [|row rest IH|e0]; intros acc e H; simpl in *.
  - discriminate.
  - apply IH; exact H.
  - inversion H; reflexivity.
Qed.

(** X11. On an instance with a cluster, [native_query] raises what the
    query call raises, and when the iteration of the result raises after
    any number of rows, it raises that exception: the rows already yielded
    are not returned. Either way it makes the one query call and awaits
    nothing. *)
Theorem native_query_propagates_errors (s : state D) (cl : cluster_t D)
    (query : string) (e : exn) :
  cluster (self s) = Some cl ->
  (fst (cluster_query D cl query (world s)) = Raise e \/
   exists q, fst (cluster_query D cl query (world s)) = Ok q /\ failure_of q = Some e) ->
  fst (native_query D query s) = Raise e /\
  events_of D (native_query D query) s = [Called (CQuery query)].
Proof.
  intros Hc H.
  unfold native_query, events_of. monad. rewrite Hc; simpl.
  destruct (cluster_query D cl query (world s)) as [[q|e0] w]; simpl in *.
  - destruct H as [H|(q' & Hq & Hf)]; [discriminate|].
    inversion Hq; subst q'. rewrite (comprehension_failure q [] e Hf). simpl.
    split; [reflexivity | apply skipn_all_app].
  - destruct H as [H|(q' & Hq & Hf)]; [|discriminate].
    inversion H; subst. simpl. split; [reflexivity | apply skipn_all_app].
Qed.

(** C7. [native_query] is a plain [def] that walks the result of the
    asyncio cluster's query with a plain [for]. On an instance with a
    cluster, when the query call returns the asyncio result of a statement,
    [native_query] raises [NotImplementedError] whatever rows the result
    holds, also when it holds none: it returns neither the rows nor an
    empty list. *)
Theorem native_query_on_async_result (s : state D) (cl : cluster_t D)
    (query : string) (rows : list pyval) :
  cluster (self s) = Some cl ->
  fst (cluster_query D cl query (world s)) = Ok (async_result rows) ->
  fst (native_query D query s) = Raise NotImplementedError /\
  fst (native_query D query s) <> Ok rows /\
  fst (native_query D query s) <> Ok [].
Proof.
  intros Hc Hq.
  assert (E : fst (native_query D query s) = Raise NotImplementedError).
  { unfold native_query. monad. rewrite Hc; simpl.
    destruct (cluster_query D cl query (world s)) as [[q|e] w]; simpl in *;
      [|discriminate].
    inversion Hq; subst q. reflexivity. }
  rewrite E. repeat split; discriminate.
Qed.

(** *** What a method leaves of the instance *)

Section Keeps.
Context {X : Type} (proj : repo D -> X).

Lemma keeps_ret {A} (a : A) : keeps D proj (ret D a).
Proof. intro s; reflexivity. Qed.

Lemma keeps_raise {A} (e : exn) : keeps D proj (@raise D A e).
Proof. intro s; reflexivity. Qed.

Lemma keeps_of_res {A} (r : res A) : keeps D proj (of_res D r).
Proof. intro s; reflexivity. Qed.

Lemma keeps_emit ev : keeps D proj (emit D ev).
Proof. intro s; reflexivity. Qed.

Lemma keeps_on_world {A} (g : W D -> res A * W D) : keeps D proj (on_world D g).
Proof. intro s; unfold on_world. destruct (g (world s)); reflexivity. Qed.

Lemma keeps_self_conn : keeps D proj (self_conn D).
Proof. intro s; unfold self_conn. destruct (conn (self s)); reflexivity. Qed.

Lemma keeps_self_cluster : keeps D proj (self_cluster D).
Proof. intro s; unfold self_cluster. destruct (cluster (self s)); reflexivity. Qed.

Lemma keeps_bind {A B} (m : M D A) (k : A -> M D B) :
  keeps D proj m -> (forall a, keeps D proj (k a)) -> keeps D proj (bind D m k).
Proof.
  intros Hm Hk s. unfold bind. specialize (Hm s).
  destruct (m s) as [[a|e] s']; simpl in *.
  - rewrite Hk. exact Hm.
  - exact Hm.
Qed.

Lemma keeps_try_except {A} (m : M D A) (h : exn -> M D A) :
  keeps D proj m -> (forall e, keeps D proj (h e)) -> keeps D proj (try_except D m h).
Proof.
  intros Hm Hh s. unfold try_except. specialize (Hm s).
  destruct (m s) as [[a|e] s']; simpl in *.
  - exact Hm.
  - rewrite Hh. exact Hm.
Qed.

Lemma keeps_if {A} (b : bool) (m1 m2 : M D A) :
  keeps D proj m1 -> keeps D proj m2 -> keeps D proj (if b then m1 else m2).
Proof. destruct b; auto. Qed.

Lemma keeps_call_async {A} c (g : W D -> res (awaitable (W D) A) * W D) :
  keeps D proj (call_async D c g).
Proof.
  unfold call_async.
  apply keeps_bind; [apply keeps_emit | intros _].
  apply keeps_bind; [apply keeps_on_world | intro run; apply keeps_ret].
Qed.

Lemma keeps_call_sync {A} c (g : W D -> res A * W D) : keeps D proj (call_sync D c g).
Proof.
  unfold call_sync.
  apply keeps_bind; [apply keeps_emit | intros _; apply keeps_on_world].
Qed.

Lemma keeps_await {A} (p : pending D A) : keeps D proj (await D p).
Proof.
  unfold await.
  apply keeps_bind; [apply keeps_emit | intros _; apply keeps_on_world].
Qed.

Lemma keeps_fmap {A B} (g : A -> B) (m : M D A) :
  keeps D proj m -> keeps D proj (fmap D g m).
Proof.
  intro Hm. unfold fmap. apply keeps_bind; [exact Hm | intro a; apply keeps_ret].
Qed.

Lemma keeps_for_items items (body : string -> pyval -> M D unit) :
  (forall k v, keeps D proj (body k v)) -> keeps D proj (for_items D items body).
Proof.
  intro Hb. induction items as [|[k v] rest IH]; simpl.
  - apply keeps_ret.
  - apply keeps_bind; [apply Hb | intros _; exact IH].
Qed.

End Keeps.

Lemma keeps_config_set_cluster c : keeps D (@conn_config D) (set_cluster D c).
Proof. intro s; reflexivity. Qed.

Lemma keeps_config_set_conn c : keeps D (@conn_config D) (set_conn D c).
Proof. intro s; reflexivity. Qed.

Ltac keeps :=
  repeat first
    [ apply keeps_try_except
    | apply keeps_bind
    | apply keeps_if
    | apply keeps_fmap
    | apply keeps_for_items
    | apply keeps_ret | apply keeps_raise | apply keeps_of_res | apply keeps_emit
    | apply keeps_on_world | apply keeps_self_conn | apply keeps_self_cluster
    | apply keeps_call_async | apply keeps_call_sync | apply keeps_await
    | apply keeps_config_set_cluster | apply keeps_config_set_conn
    | match goal with |- keeps _ _ (match ?e with _ => _ end) => destruct e end
    | intro ].

Lemma keeps_config_create_conn cfg : keeps D (@conn_config D) (create_conn D cfg).
Proof. unfold create_conn. keeps. Qed.

Lemma keeps_config_initialize_repo : keeps D (@conn_config D) (initialize_repo D).
Proof.
  intro s. unfold initialize_repo. rewrite Facts.try_reraise.
  destruct (conn (self s)); [reflexivity | apply keeps_config_create_conn].
Qed.

Lemma keeps_self_validate : keeps D (fun r => r) (validate D).
Proof. unfold validate. keeps. Qed.

Lemma keeps_self_find_by_key key compress : keeps D (fun r => r) (find_by_key D key compress).
Proof. unfold find_by_key. keeps. Qed.

Lemma keeps_self_save key value compress : keeps D (fun r => r) (save D key value compress).
Proof. unfold save. keeps. Qed.

Lemma keeps_self_save_all items : keeps D (fun r => r) (save_all D items).
Proof. unfold save_all. keeps. Qed.

Lemma keeps_self_native_query query : keeps D (fun r => r) (native_query D query).
Proof. unfold native_query. keeps. Qed.

Lemma keeps_self_run o : o <> Initialize -> keeps D (fun r => r) (run D o).
Proof.
  intro Ho. destruct o; simpl; try contradiction; apply keeps_fmap.
  - apply keeps_self_validate.
  - apply keeps_self_find_by_key.
  - apply keeps_self_save.
  - apply keeps_self_save_all.
  - apply keeps_self_native_query.
Qed.



(** X14. No operation changes the config the instance was constructed
    with, [initialize_repo] included, whether it returns or raises. *)
Theorem config_is_never_changed (o : operation) (s : state D) :
  conn_config (self (snd (run D o s))) = conn_config (self s).
Proof.
  destruct o as [| |k cmp|k v cmp|items|q].
  - simpl. apply (keeps_fmap (@conn_config D)). apply keeps_config_initialize_repo.
  - rewrite (keeps_self_run Validate); [reflexivity | discriminate].
  - rewrite (keeps_self_run (FindByKey k cmp)); [reflexivity | discriminate].
  - rewrite (keeps_self_run (Save k v cmp)); [reflexivity | discriminate].
  - rewrite (keeps_self_run (SaveAll items)); [reflexivity | discriminate].
  - rewrite (keeps_self_run (NativeQuery q)); [reflexivity | discriminate].
Qed.

(** *** [initialize_repo] and [create_conn] *)

(** X15. Two calls of [initialize_repo] in succession: when the first one
    returns, whatever state it started from, the second one returns
    without any SDK call and changes nothing. *)
Theorem initialize_repo_twice (s : state D) :
  fst (initialize_repo D s) = Ok tt ->
  initialize_repo D (snd (initialize_repo D s)) = (Ok tt, snd (initialize_repo D s)).
Proof.
  intro H.
  assert (B : exists c, conn (self (snd (initialize_repo D s))) = Some c).
  { revert H. unfold initialize_repo. rewrite Facts.try_reraise.
    destruct (conn (self s)) as [c|] eqn:Hc.
    - intros _. exists c. exact Hc.
    - apply Facts.create_conn_binds. }
  destruct B as [c Hc].
  unfold initialize_repo at 1. unfold try_except, ret. rewrite Hc. reflexivity.
Qed.

(** X16. A failed [initialize_repo] does not poison the instance: when it
    raises on an unbound instance, [conn] is still [None] and the config is
    unchanged, so the next [initialize_repo] runs the whole bind sequence
    again from its first step. *)
Theorem failed_initialize_can_be_retried (s : state D) (e : exn) :
  conn (self s) = None ->
  fst (initialize_repo D s) = Raise e ->
  let s' := snd (initialize_repo D s) in
  conn (self s') = None /\
  conn_config (self s') = conn_config (self s) /\
  initialize_repo D s' = create_conn D (conn_config (self s)) s'.
Proof.
  intros Hc H s'.
  assert (Hk : conn_config (self s') = conn_config (self s))
    by apply keeps_config_initialize_repo.
  assert (Hn : conn (self s') = None).
  { subst s'. revert H. unfold initialize_repo. rewrite Facts.try_reraise, Hc.
    intro H. rewrite (Facts.create_conn_aborts D _ s e H). exact Hc. }
  split; [exact Hn | split; [exact Hk|]].
  unfold initialize_repo at 1. rewrite Facts.try_reraise, Hn, Hk. reflexivity.
Qed.


(** X18. A connect timeout or key-value timeout of 86400000000000 seconds
    or more in magnitude is more than [timedelta] holds: [create_conn] then
    raises [OverflowError] after building the authenticator and before any
    connection is attempted. *)
Theorem create_conn_rejects_endless_timeouts (cfg : ConnConfig) (s : state D) :
  999999999 < Z.abs (connect_timeout cfg / 86400) \/
  999999999 < Z.abs (kv_timeout cfg / 86400) ->
  fst (create_conn D cfg s) = Raise OverflowError /\
  world (snd (create_conn D cfg s)) = world s /\
  self (snd (create_conn D cfg s)) = self s /\
  events_of D (create_conn D cfg) s =
    [Called (CPasswordAuthenticator (user_name cfg) (password cfg))].
Proof.
  intro H. unfold create_conn, events_of. rewrite Facts.try_reraise.
  unfold timedelta_seconds.
  destruct (999999999 <? Z.abs (connect_timeout cfg / 86400)) eqn:Ec.
  - monad. rewrite skipn_all_app. repeat split.
  - destruct (999999999 <? Z.abs (kv_timeout cfg / 86400)) eqn:Ek.
    + monad. rewrite skipn_all_app. repeat split.
    + apply Z.ltb_ge in Ec. apply Z.ltb_ge in Ek. lia.
Qed.

End Generic.

(** *** [ConnConfig.__repr__] *)

(** The text [__repr__] gives for a config does not depend on the
    password or on the CA certificate path: two configs that differ only in
    these have the same representation. *)
Theorem repr_hides_password (c : ConnConfig) (password' : string)
    (ca_cert' : option string) :
  Config.__repr__ (with_secrets c password' ca_cert') = Config.__repr__ c.
Proof. reflexivity. Qed.

End Behaviour.

(* ===================================================================== *)
(** ** Instances on the in-memory SDK *)
(* ===================================================================== *)

Module BehaviourRuns.
Import Py Config Sdk Mem.

Definition new_instance : Conn.state driver := fresh cluster0 connection.

Lemma unbound_document_operations_raise_witness :
  Conn.validate driver new_instance = (Raise AttributeError, new_instance) /\
  Conn.find_by_key driver "foo" false new_instance = (Raise AttributeError, new_instance) /\
  Conn.save driver "101" (PStr "ok") false new_instance = (Raise AttributeError, new_instance).
Proof.
  apply (Behaviour.unbound_document_operations_raise driver new_instance
           "foo" (PStr "ok") false).
  reflexivity.
Defined.

Lemma unbound_save_all_witness :
  Conn.save_all driver [] new_instance = (Ok tt, new_instance) /\
  Conn.save_all driver [("a", PInt 1)] new_instance = (Raise AttributeError, new_instance).
Proof.
  split.
  - apply (Behaviour.unbound_save_all driver new_instance []). reflexivity.
  - apply (Behaviour.unbound_save_all driver new_instance [("a", PInt 1)]). reflexivity.
Defined.

Lemma native_query_without_cluster_witness :
  Conn.native_query driver "SELECT 1" new_instance = (Raise AttributeError, new_instance).
Proof.
  apply (Behaviour.native_query_without_cluster driver new_instance "SELECT 1").
  reflexivity.
Defined.

Lemma save_is_one_awaited_upsert_witness :
  fst (Conn.save driver "101" (PStr "ok") false ready) = Ok {| cas := 1 |} /\
  fst (Conn.save driver "101" (PStr "ok") true ready) = Raise value_format.
Proof.
  split.
  - exact (proj1 (Behaviour.save_is_one_awaited_upsert driver ready
                    ("test", "test", "test") "101" (PStr "ok") false eq_refl)).
  - exact (proj1 (Behaviour.save_is_one_awaited_upsert driver ready
                    ("test", "test", "test") "101" (PStr "ok") true eq_refl)).
Defined.

Lemma find_by_key_is_one_lookup_witness :
  Conn.world (snd (Conn.find_by_key driver "foo" true ready)) = Conn.world ready.
Proof.
  exact (proj1 (Behaviour.find_by_key_is_one_lookup driver ready
                  ("test", "test", "test") "foo" true eq_refl)).
Defined.

Lemma find_by_key_propagates_lookup_errors_witness :
  fst (Conn.find_by_key driver "foo" false (unplugged ready)) = Raise timeout.
Proof.
  apply (Behaviour.find_by_key_propagates_lookup_errors driver (unplugged ready)
           ("test", "test", "test") "foo" false timeout).
  - reflexivity.
  - reflexivity.
  - discriminate.
Defined.

Definition profile : list (pyval * pyval) :=
  [(PStr "name", PStr "ok"); (PStr "tags", PList [PInt 1; PInt 2])].

Lemma find_by_key_returns_dictionaries_witness :
  fst (Conn.find_by_key driver "101" false (holding "101" (JsonDoc (PDict profile)) ready))
    = Ok (PDict profile).
Proof.
  apply (Behaviour.find_by_key_returns_dictionaries driver
           (holding "101" (JsonDoc (PDict profile)) ready) ("test", "test", "test"));
    reflexivity.
Defined.

Lemma find_by_key_on_text_witness :
  fst (Conn.find_by_key driver "101" false (holding "101" (JsonDoc (PStr "ok")) ready))
    = Ok (PStr "ok") /\
  fst (Conn.find_by_key driver "101" false
         (holding "101" (JsonDoc (PStr EmptyString)) ready)) = Ok (PDict []).
Proof.
  split.
  - apply (Behaviour.find_by_key_on_text driver
             (holding "101" (JsonDoc (PStr "ok")) ready) ("test", "test", "test")
             "101" "ok"); reflexivity.
  - apply (Behaviour.find_by_key_on_text driver
             (holding "101" (JsonDoc (PStr EmptyString)) ready) ("test", "test", "test")
             "101" EmptyString); reflexivity.
Defined.


Lemma validate_is_one_raw_lookup_witness :
  fst (Conn.validate driver (holding "dummykey" (BinaryDoc [x6f; x6b]) ready))
    = Ok (Some {| value := PBytes [x6f; x6b] |}).
Proof.
  apply (proj1 (Behaviour.validate_is_one_raw_lookup driver
                  (holding "dummykey" (BinaryDoc [x6f; x6b]) ready)
                  ("test", "test", "test") eq_refl)).
  reflexivity.
Defined.

Definition broken_rows : QueryResult :=
  Yield (PDict [(PStr "id", PInt 1)]) (Fail timeout).

Lemma native_query_propagates_errors_witness :
  fst (Conn.native_query driver "SELECT id FROM test"
         (answering "SELECT id FROM test" broken_rows ready)) = Raise timeout /\
  fst (Conn.native_query driver "SELEKT" ready) = Raise parsing_failed.
Proof.
  split.
  - apply (Behaviour.native_query_propagates_errors driver
             (answering "SELECT id FROM test" broken_rows ready)
             "couchbase://localhost" "SELECT id FROM test" timeout eq_refl).
    right. exists broken_rows. split; reflexivity.
  - apply (Behaviour.native_query_propagates_errors driver ready
             "couchbase://localhost" "SELEKT" parsing_failed eq_refl).
    left. reflexivity.
Defined.



Lemma initialize_repo_twice_witness :
  Conn.initialize_repo driver (bound cluster0 connection)
    = (Ok tt, bound cluster0 connection).
Proof.
  apply (Behaviour.initialize_repo_twice driver new_instance). reflexivity.
Defined.

Lemma failed_initialize_can_be_retried_witness :
  Conn.conn (Conn.self (bound offline connection)) = None /\
  Conn.conn (Conn.self (bound cluster0 elsewhere)) = None.
Proof.
  split.
  - exact (proj1 (Behaviour.failed_initialize_can_be_retried driver
                    (fresh offline connection) timeout eq_refl eq_refl)).
  - exact (proj1 (Behaviour.failed_initialize_can_be_retried driver
                    (fresh cluster0 elsewhere) bucket_not_found eq_refl eq_refl)).
Defined.


Lemma create_conn_rejects_endless_timeouts_witness :
  fst (Conn.create_conn driver endless (fresh cluster0 endless)) = Raise OverflowError.
Proof.
  apply (Behaviour.create_conn_rejects_endless_timeouts driver endless
           (fresh cluster0 endless)).
  left. reflexivity.
Defined.

Lemma native_query_on_async_result_witness :
  fst (Conn.native_query driver "SELECT id FROM test"
         (answering "SELECT id FROM test"
            (async_result [PDict [(PStr "id", PInt 1)]]) ready))
    = Raise NotImplementedError /\
  fst (Conn.native_query driver "SELECT id FROM test WHERE false"
         (answering "SELECT id FROM test WHERE false" (async_result []) ready))
    = Raise NotImplementedError.
Proof.
  split.
  - exact (proj1 (Behaviour.native_query_on_async_result driver
                    (answering "SELECT id FROM test"
                       (async_result [PDict [(PStr "id", PInt 1)]]) ready)
                    "couchbase://localhost" "SELECT id FROM test"
                    [PDict [(PStr "id", PInt 1)]] eq_refl eq_refl)).
  - exact (proj1 (Behaviour.native_query_on_async_result driver
                    (answering "SELECT id FROM test WHERE false" (async_result []) ready)
                    "couchbase://localhost" "SELECT id FROM test WHERE false"
                    [] eq_refl eq_refl)).
Defined.

(** The representation of the module-level [connection]. *)
Example repr_of_connection :
  Config.__repr__ connection =
  "ConnConfig(host_or_dsn='localhost', user='Administrator', bucket='test', scope='test', collection='test', ssl=False, connect_timeout=10, kv_timeout=5, wait_timeout=5, sasl_mech='PLAIN')".
Proof. reflexivity. Qed.

End BehaviourRuns.
